(** * AgenticDebuggerVsix: the example agents of the debugger bridge

    A shallow embedding of the three client scripts under [examples/]
    ([basic_agent.py], [websocket_agent.py], [autonomous_debug_agent.py]).

    The scripts are Python: values decoded from JSON are dynamically typed,
    every helper talks to the bridge over HTTP, and everything they report
    goes to standard output.  The embedding keeps that shape:

    - decoded JSON is the inductive [JSON]; the operations the scripts apply
      to it ([x[k]], [x.get(k, d)], [len], slicing, truth value, [in], ...)
      return a [Result], raising the exception Python raises on a value of
      the wrong shape;
    - effects are run in a state-and-exception monad [M S]: the state
      survives a raised exception, as the interpreter's does;
    - the world is the trace of events a script has caused so far
      (requests sent, lines printed, sleeps, WebSocket connects); the bridge
      answers a request as a function of that trace, so its answers may
      change from one poll to the next;
    - what the scripts leave to libraries (the JSON decoder, [repr], binary64
      arithmetic, the bridge itself) is the interface [Host]. *)

From Stdlib Require Import ZArith QArith List String Ascii Bool Lia DecimalString.
From Stdlib Require Import RelationClasses.
Import ListNotations.

Local Open Scope list_scope.
Local Open Scope string_scope.

(** ** The Python values the scripts handle *)

(** Binary64 floats and their arithmetic are the interpreter's; the scripts
    only add them up, divide by a length and test them for truth. *)
Class FloatModel : Type := {
  pyfloat : Type;
  (** [bool(x)] *)
  float_truth : pyfloat -> bool;
  (** [float(n)]; [None] is OverflowError *)
  float_of_int : Z -> option pyfloat;
  (** the running total of [sum] after one more float *)
  float_add : pyfloat -> pyfloat -> pyfloat;
  (** [x - y] *)
  float_sub : pyfloat -> pyfloat -> pyfloat;
  (** [x / y] for a divisor that is not zero *)
  float_div : pyfloat -> pyfloat -> pyfloat;
  (** [a / b] on two ints, [b] not zero; [None] is OverflowError *)
  int_truediv : Z -> Z -> option pyfloat
}.

(** What [json.loads] and [Response.json] return.  A dict is kept as an
    association list in insertion order, keys distinct. *)
#[local] Unset Elimination Schemes.
Inductive JSON {FM : FloatModel} : Type :=
| JNull
| JBool (b : bool)
| JInt (z : Z)
| JFloat (f : pyfloat)
| JStr (s : string)
| JList (l : list JSON)
| JDict (d : list (string * JSON)).
#[local] Set Elimination Schemes.

(** The exceptions the modelled operations raise. *)
Inductive exn : Type :=
| KeyError
| TypeError
| AttributeError
| ZeroDivisionError
| OverflowError
| ValueError
| JSONDecodeError
| ConnectionError.

Inductive Result (A : Type) : Type :=
| Return (a : A)
| Raise (e : exn).
Arguments Return {A} a.
Arguments Raise {A} e.

(** The result of arithmetic on ints and floats. *)
Inductive Num {FM : FloatModel} : Type :=
| NInt (z : Z)
| NFloat (f : pyfloat).

(** ** Strings *)

Definition nl : string := String "010"%char EmptyString.

(** [sub in s] on two strings. *)
Fixpoint contains (sub s : string) : bool :=
  if String.prefix sub s then true
  else match s with
       | EmptyString => false
       | String _ s' => contains sub s'
       end.

(** [str.lower] on the ASCII letters; other bytes are left as they are. *)
Definition lower_ascii (c : ascii) : ascii :=
  let n := nat_of_ascii c in
  if (65 <=? n)%nat && (n <=? 90)%nat then ascii_of_nat (n + 32) else c.

Fixpoint lower (s : string) : string :=
  match s with
  | EmptyString => EmptyString
  | String c s' => String (lower_ascii c) (lower s')
  end.

Fixpoint chars (s : string) : list string :=
  match s with
  | EmptyString => []
  | String c s' => String c EmptyString :: chars s'
  end.

Definition str_of_Z (z : Z) : string := NilZero.string_of_int (Z.to_int z).
Definition str_of_nat (n : nat) : string := str_of_Z (Z.of_nat n).

(** ** Dicts *)

Section Dict.
Context {V : Type}.

Fixpoint dict_get (k : string) (d : list (string * V)) : option V :=
  match d with
  | [] => None
  | (k', v) :: d' => if String.eqb k k' then Some v else dict_get k d'
  end.

Definition dict_has (k : string) (d : list (string * V)) : bool :=
  match dict_get k d with Some _ => true | None => false end.

Definition dict_keys (d : list (string * V)) : list string := map fst d.
End Dict.

(** ** Operations on decoded values *)

Section Values.
Context {FM : FloatModel}.

(** [x[k]] with a string key. *)
Definition py_getitem (x : JSON) (k : string) : Result JSON :=
  match x with
  | JDict d => match dict_get k d with
               | Some v => Return v
               | None => Raise KeyError
               end
  | _ => Raise TypeError
  end.

(** [x.get(k, default)]; only a dict has the method. *)
Definition py_get (x : JSON) (k : string) (default : JSON) : Result JSON :=
  match x with
  | JDict d => match dict_get k d with
               | Some v => Return v
               | None => Return default
               end
  | _ => Raise AttributeError
  end.

(** [x == s] for a string literal [s]. *)
Definition py_eq_str (x : JSON) (s : string) : bool :=
  match x with
  | JStr t => String.eqb t s
  | _ => false
  end.

(** The truth value of [x] in [if x:]. *)
Definition py_truth (x : JSON) : bool :=
  match x with
  | JNull => false
  | JBool b => b
  | JInt z => negb (z =? 0)%Z
  | JFloat f => float_truth f
  | JStr s => negb (String.eqb s "")
  | JList l => match l with [] => false | _ => true end
  | JDict d => match d with [] => false | _ => true end
  end.

(** [len(x)] *)
Definition py_len (x : JSON) : Result Z :=
  match x with
  | JStr s => Return (Z.of_nat (String.length s))
  | JList l => Return (Z.of_nat (List.length l))
  | JDict d => Return (Z.of_nat (List.length d))
  | _ => Raise TypeError
  end.

(** The items a [for] loop or a generator draws from [x]. *)
Definition py_iter (x : JSON) : Result (list JSON) :=
  match x with
  | JStr s => Return (map JStr (chars s))
  | JList l => Return l
  | JDict d => Return (map JStr (dict_keys d))
  | _ => Raise TypeError
  end.

(** [x[:n]].  A dict refuses a slice (TypeError: unhashable, KeyError
    from Python 3.12 on). *)
Definition py_slice_to (n : nat) (x : JSON) : Result JSON :=
  match x with
  | JStr s => Return (JStr (String.substring 0 n s))
  | JList l => Return (JList (firstn n l))
  | _ => Raise TypeError
  end.

(** [x.keys()] *)
Definition py_keys (x : JSON) : Result (list string) :=
  match x with
  | JDict d => Return (dict_keys d)
  | _ => Raise AttributeError
  end.

(** [x.lower()] *)
Definition py_lower (x : JSON) : Result string :=
  match x with
  | JStr s => Return (lower s)
  | _ => Raise AttributeError
  end.

(** [needle in x] for a string [needle]. *)
Definition py_in (needle : string) (x : JSON) : Result bool :=
  match x with
  | JStr s => Return (contains needle s)
  | JList l => Return (existsb (fun y => py_eq_str y needle) l)
  | JDict d => Return (dict_has needle d)
  | _ => Raise TypeError
  end.

(** [a + x] inside [sum]: ints add exactly, a float makes the total a
    float; [True] and [False] count as 1 and 0. *)
Definition num_add (a b : Num) : Result Num :=
  match a, b with
  | NInt x, NInt y => Return (NInt (x + y))
  | NInt x, NFloat g =>
      match float_of_int x with
      | Some f => Return (NFloat (float_add f g))
      | None => Raise OverflowError
      end
  | NFloat f, NInt y =>
      match float_of_int y with
      | Some g => Return (NFloat (float_add f g))
      | None => Raise OverflowError
      end
  | NFloat f, NFloat g => Return (NFloat (float_add f g))
  end.

Definition py_add (a : Num) (x : JSON) : Result Num :=
  match x with
  | JInt z => num_add a (NInt z)
  | JBool b => num_add a (NInt (Z.b2z b))
  | JFloat f => num_add a (NFloat f)
  | _ => Raise TypeError
  end.

(** [total / n] for an int [n]. *)
Definition py_truediv (total : Num) (n : Z) : Result pyfloat :=
  if (n =? 0)%Z then Raise ZeroDivisionError
  else match total with
       | NInt a => match int_truediv a n with
                   | Some q => Return q
                   | None => Raise OverflowError
                   end
       | NFloat f => match float_of_int n with
                     | Some g => Return (float_div f g)
                     | None => Raise OverflowError
                     end
       end.
End Values.

(** ** Effects: state and exceptions *)

(** A computation reads a state, returns or raises, and leaves a state:
    what was done before an exception stays done. *)
Definition M (S A : Type) : Type := S -> Result A * S.

Definition ret {S A} (a : A) : M S A := fun s => (Return a, s).

Definition raise {S A} (e : exn) : M S A := fun s => (Raise e, s).

Definition bind {S A B} (m : M S A) (k : A -> M S B) : M S B :=
  fun s => match m s with
           | (Return a, s') => k a s'
           | (Raise e, s') => (Raise e, s')
           end.

(** A pure operation that may raise. *)
Definition try {S A} (r : Result A) : M S A := fun s => (r, s).

Declare Scope py_scope.
Delimit Scope py_scope with py.
Notation "x <- m ;; k" := (bind m (fun x => k))
  (at level 61, m at next level, right associativity) : py_scope.
Notation "m ;; k" := (bind m (fun _ => k))
  (at level 61, right associativity) : py_scope.
Local Open Scope py_scope.

(** [xs.append(x)] *)
Definition append {A} (xs : list A) (x : A) : list A := (xs ++ [x])%list.

(** [for x in xs: body x], where the body returns [true] to [break]. *)
Fixpoint for_each {S A} (xs : list A) (body : A -> M S bool) : M S unit :=
  match xs with
  | [] => ret tt
  | x :: xs' => stop <- body x ;; if stop then ret tt else for_each xs' body
  end.

(** ** The bridge, seen from a script *)

Inductive Method : Type := GET | POST.

Section Net.
Context {FM : FloatModel}.

(** A call of [requests.get] or [requests.post]. *)
Record Request : Type := {
  method : Method;
  url : string;
  headers : list (string * string);
  json : option JSON
}.

Record Response : Type := {
  status_code : Z;
  text : string
}.

(** What a script does that the outside can see.  [EvWsConnect] is the
    handshake of a [run_forever] the script calls itself; [EvThreadStart]
    is the start of a daemon thread that is to run [run_forever] on an app
    with this address and these extra headers: its handshake is the
    thread's own and has no place among the events of the script. *)
Inductive Event : Type :=
| EvRequest (r : Request)
| EvPrint (line : string)
| EvSleep (ms : Z)
| EvWsConnect (ws_url : string) (header : list (string * string))
| EvThreadStart (ws_url : string) (header : list (string * string))
| EvWsClose.

Definition World : Type := list Event.

(** [websocket.WebSocketApp(url, header=None, on_message=..., ...)]: the
    address and the extra handshake headers; [header] defaults to none. *)
Record WebSocketApp : Type := {
  app_url : string;
  app_header : list (string * string)
}.

Definition new_WebSocketApp (u : string) (header : option (list (string * string)))
  : WebSocketApp :=
  {| app_url := u;
     app_header := match header with Some hs => hs | None => [] end |}.
End Net.

(** The libraries and the service the scripts run against. *)
Class Host {FM : FloatModel} : Type := {
  (** [json.loads]; [None] is JSONDecodeError *)
  json_loads : string -> option JSON;
  (** [repr] of a float or of a container, as an f-string shows it *)
  py_repr : JSON -> string;
  (** [format(x, spec)] of a float and of an int, for a spec such as [.1f] *)
  format_float : string -> pyfloat -> string;
  format_int : string -> Z -> string;
  (** [time.time()] *)
  time_time : World -> pyfloat;
  (** the bridge's answer to a request, given everything the script did
      before; [None] is a transport failure *)
  bridge : World -> Request -> option Response
}.

Section Runtime.
Context {FM : FloatModel} {host : Host}.

(** [str(x)], the form of [x] inside an f-string. *)
Definition py_str (x : JSON) : string :=
  match x with
  | JNull => "None"
  | JBool true => "True"
  | JBool false => "False"
  | JInt z => str_of_Z z
  | JStr s => s
  | _ => py_repr x
  end.

(** [{x:spec}] with a float presentation type: a string refuses it with
    ValueError, None and the containers with TypeError. *)
Definition py_format (x : JSON) (spec : string) : Result string :=
  match x with
  | JFloat f => Return (format_float spec f)
  | JInt z => Return (format_int spec z)
  | JBool b => Return (format_int spec (Z.b2z b))
  | JStr _ => Raise ValueError
  | _ => Raise TypeError
  end.

Definition now : M World pyfloat := fun w => (Return (time_time w), w).

Definition emit (e : Event) : M World unit := fun w => (Return tt, (w ++ [e])%list).

Definition print (line : string) : M World unit := emit (EvPrint line).

(** [time.sleep], in milliseconds. *)
Definition sleep (ms : Z) : M World unit := emit (EvSleep ms).

Definition send (r : Request) : M World Response :=
  fun w => match bridge w r with
           | Some resp => (Return resp, (w ++ [EvRequest r])%list)
           | None => (Raise ConnectionError, (w ++ [EvRequest r])%list)
           end.

Definition requests_get (u : string) (hs : list (string * string)) : M World Response :=
  send {| method := GET; url := u; headers := hs; json := None |}.

Definition requests_post (u : string) (body : JSON) (hs : list (string * string))
  : M World Response :=
  send {| method := POST; url := u; headers := hs; json := Some body |}.

(** [ws.run_forever()]: the handshake.  The messages it then delivers
    are handled by [on_message], one call each. *)
Definition run_forever (ws : WebSocketApp) : M World unit :=
  emit (EvWsConnect (app_url ws) (app_header ws)).

(** [threading.Thread(target=ws.run_forever, daemon=True).start()]: the
    call returns at once; when the thread connects is not the caller's to
    say. *)
Definition Thread_start_run_forever (ws : WebSocketApp) : M World unit :=
  emit (EvThreadStart (app_url ws) (app_header ws)).

Definition ws_close (ws : WebSocketApp) : M World unit := emit EvWsClose.

(** [resp.json()]: the body decoded, whatever the status code. *)
Definition resp_json {S} (resp : Response) : M S JSON :=
  match json_loads (text resp) with
  | Some j => ret j
  | None => raise JSONDecodeError
  end.
End Runtime.

(** The discovery file, as the data model types it. *)
Record Discovery : Type := {
  port : Z;
  defaultApiKey : string;
  keyHeader : string
}.

(** ** basic_agent.py *)

Module BasicAgent.
Section Script.
Context {FM : FloatModel} {host : Host} (discovery : Discovery).

Definition BASE_URL : string := "http://localhost:" ++ str_of_Z (port discovery).
Definition API_KEY : string := defaultApiKey discovery.
Definition HEADERS : list (string * string) := [(keyHeader discovery, API_KEY)].

Definition get_state : M World JSON :=
  resp <- requests_get (BASE_URL ++ "/state") HEADERS ;;
  resp_json resp.

(** [kwargs] cannot bind [action] a second time: the call itself raises
    TypeError. *)
Definition execute_command (action : string) (kwargs : list (string * JSON))
  : M World JSON :=
  if dict_has "action" kwargs then raise TypeError
  else
    let cmd := JDict (("action", JStr action) :: kwargs) in
    resp <- requests_post (BASE_URL ++ "/command") cmd HEADERS ;;
    resp_json resp.

(** [stop_on_error] is [None] when the caller leaves it out. *)
Definition batch_execute (commands : JSON) (stop_on_error : option bool)
  : M World JSON :=
  let stop_on_error := match stop_on_error with Some b => b | None => true end in
  let batch := JDict [("commands", commands); ("stopOnError", JBool stop_on_error)] in
  resp <- requests_post (BASE_URL ++ "/batch") batch HEADERS ;;
  resp_json resp.

Definition get_errors : M World JSON :=
  resp <- requests_get (BASE_URL ++ "/errors") HEADERS ;;
  resp_json resp.

Definition get_metrics : M World JSON :=
  resp <- requests_get (BASE_URL ++ "/metrics") HEADERS ;;
  resp_json resp.

Definition breakpoint_at (file : string) (line : Z) : list (string * JSON) :=
  [("file", JStr file); ("line", JInt line)].

Definition setBreakpoint (file : string) (line : Z) : JSON :=
  JDict (("action", JStr "setBreakpoint") :: breakpoint_at file line).

(** One round of the loop of lines 112-124; [true] is [break]. *)
Definition poll (i : nat) : M World bool :=
  state <- get_state ;;
  snapshot <- try (py_getitem state "snapshot") ;;
  mode <- try (py_getitem snapshot "mode") ;;
  print ("  Poll " ++ str_of_nat (i + 1) ++ ": mode = " ++ py_str mode) ;;
  if py_eq_str mode "Break" then
    print "🛑 Hit breakpoint!" ;;
    snapshot <- try (py_getitem state "snapshot") ;;
    locals_dict <- try (py_getitem snapshot "locals") ;;
    keys <- try (py_keys locals_dict) ;;
    print ("Locals: " ++ py_repr (JList (map JStr (firstn 5 keys)))) ;;
    ret true
  else
    sleep 500 ;;
    ret false.

(** [for i in range(10): ...] *)
Definition polling_loop : M World unit := for_each (seq 0 10) poll.

Definition show_error (err : JSON) : M World bool :=
  file <- try (py_getitem err "file") ;;
  line <- try (py_getitem err "line") ;;
  description <- try (py_getitem err "description") ;;
  print ("  - " ++ py_str file ++ ":" ++ py_str line ++ " - " ++ py_str description) ;;
  ret false.

(** The workflow under [if __name__ == "__main__":]. *)
Definition main : M World unit :=
  print "🤖 Agentic Debugger - Basic Agent Example" ;;
  print ("Connected to: " ++ BASE_URL) ;;
  print "" ;;
  state <- get_state ;;
  snapshot <- try (py_getitem state "snapshot") ;;
  mode <- try (py_getitem snapshot "mode") ;;
  print ("Current mode: " ++ py_str mode) ;;
  print "" ;;
  print "Example 1: Setting breakpoints individually (slow)" ;;
  start <- now ;;
  execute_command "setBreakpoint" (breakpoint_at "C:\Code\Program.cs" 10) ;;
  execute_command "setBreakpoint" (breakpoint_at "C:\Code\Worker.cs" 25) ;;
  execute_command "setBreakpoint" (breakpoint_at "C:\Code\Service.cs" 42) ;;
  stop <- now ;;
  print ("⏱️  Took " ++ format_float ".2f" (float_sub stop start)
         ++ "s for 3 individual requests") ;;
  print "" ;;
  print "Example 2: Setting breakpoints with batch (fast)" ;;
  start <- now ;;
  result <- batch_execute
              (JList [setBreakpoint "C:\Code\Program.cs" 15;
                      setBreakpoint "C:\Code\Worker.cs" 30;
                      setBreakpoint "C:\Code\Service.cs" 45]) None ;;
  stop <- now ;;
  print ("⏱️  Took " ++ format_float ".2f" (float_sub stop start)
         ++ "s for 1 batch request (3 commands)") ;;
  successCount <- try (py_getitem result "successCount") ;;
  failureCount <- try (py_getitem result "failureCount") ;;
  print ("✅ Success: " ++ py_str successCount ++ ", ❌ Failures: " ++ py_str failureCount) ;;
  print "" ;;
  print "Example 3: Checking for build errors" ;;
  errors <- get_errors ;;
  (if py_truth errors then
     n <- try (py_len errors) ;;
     print ("⚠️  Found " ++ str_of_Z n ++ " errors/warnings:") ;;
     shown <- try (py_slice_to 5 errors) ;;
     items <- try (py_iter shown) ;;
     for_each items show_error
   else
     print "✅ No errors found!") ;;
  print "" ;;
  print "Example 4: Performance metrics" ;;
  metrics <- get_metrics ;;
  uptime <- try (py_getitem metrics "uptime") ;;
  print ("📊 Uptime: " ++ py_str uptime) ;;
  totalRequests <- try (py_getitem metrics "totalRequests") ;;
  print ("📊 Total requests: " ++ py_str totalRequests) ;;
  averageResponseTimeMs <- try (py_getitem metrics "averageResponseTimeMs") ;;
  average <- try (py_format averageResponseTimeMs ".1f") ;;
  print ("📊 Average response time: " ++ average ++ "ms") ;;
  connections <- try (py_getitem metrics "activeWebSocketConnections") ;;
  print ("📊 Active WebSocket connections: " ++ py_str connections) ;;
  print "" ;;
  print "Example 5: Polling for state changes (not recommended)" ;;
  print "Starting debug session..." ;;
  execute_command "start" [] ;;
  print "Polling for state changes... (this is slow, use WebSocket instead!)" ;;
  polling_loop ;;
  print "" ;;
  print "💡 Tip: Use WebSocket for real-time updates (see websocket_agent.py)".
End Script.
End BasicAgent.

(** ** websocket_agent.py *)

Module WebSocketAgent.
Section Script.
Context {FM : FloatModel} {host : Host} (discovery : Discovery).

Definition BASE_URL : string := "http://localhost:" ++ str_of_Z (port discovery).
Definition WS_URL : string := "ws://localhost:" ++ str_of_Z (port discovery) ++ "/ws".
Definition API_KEY : string := defaultApiKey discovery.
Definition HEADERS : list (string * string) := [(keyHeader discovery, API_KEY)].

Definition execute_command (action : string) (kwargs : list (string * JSON))
  : M World JSON :=
  if dict_has "action" kwargs then raise TypeError
  else
    let cmd := JDict (("action", JStr action) :: kwargs) in
    resp <- requests_post (BASE_URL ++ "/command") cmd HEADERS ;;
    resp_json resp.

Definition batch_execute (commands : JSON) : M World JSON :=
  let batch := JDict [("commands", commands); ("stopOnError", JBool true)] in
  resp <- requests_post (BASE_URL ++ "/batch") batch HEADERS ;;
  resp_json resp.

Definition show_frame (numbered : nat * JSON) : M World bool :=
  let (i, frame) := numbered in
  print ("      " ++ str_of_nat (i + 1) ++ ". " ++ py_str frame) ;;
  ret false.

Definition on_message (message : string) : M World unit :=
  data <- (match json_loads message with
           | Some j => ret j
           | None => raise JSONDecodeError
           end) ;;
  event_type <- try (py_get data "type" JNull) ;;
  if py_eq_str event_type "connected" then
    connectionId <- try (py_getitem data "connectionId") ;;
    print ("✅ Connected! ID: " ++ py_str connectionId)
  else if py_eq_str event_type "stateChange" then
    snapshot <- try (py_getitem data "snapshot") ;;
    mode <- try (py_getitem snapshot "mode") ;;
    print (nl ++ "🔔 State Change: " ++ py_str mode) ;;
    if py_eq_str mode "Break" then
      file <- try (py_get snapshot "file" (JStr "unknown")) ;;
      print ("   📍 File: " ++ py_str file) ;;
      line <- try (py_get snapshot "line" (JStr "?")) ;;
      print ("   📍 Line: " ++ py_str line) ;;
      locals_dict <- try (py_get snapshot "locals" (JDict [])) ;;
      n <- try (py_len locals_dict) ;;
      print ("   🔍 Locals: " ++ str_of_Z n ++ " variables") ;;
      stack <- try (py_get snapshot "stack" (JList [])) ;;
      if py_truth stack then
        print "   📚 Stack:" ;;
        top <- try (py_slice_to 3 stack) ;;
        frames <- try (py_iter top) ;;
        for_each (combine (seq 0 (List.length frames)) frames) show_frame
      else ret tt
    else if py_eq_str mode "Run" then
      print "   ▶️  Execution continuing..."
    else if py_eq_str mode "Design" then
      notes <- try (py_get snapshot "notes" (JStr "")) ;;
      print ("   ⏹️  " ++ py_str notes)
    else ret tt
  else if py_eq_str event_type "pong" then
    print "💓 Heartbeat OK"
  else ret tt.

Definition setup_commands : JSON :=
  JList [JDict [("action", JStr "clearBreakpoints")];
         JDict [("action", JStr "setBreakpoint");
                ("file", JStr "C:\Code\Program.cs"); ("line", JInt 42)];
         JDict [("action", JStr "setBreakpoint");
                ("file", JStr "C:\Code\Worker.cs"); ("line", JInt 25)]].

(** The script's main block.  [interrupted] says whether the listener is
    left by Ctrl+C rather than by the connection closing. *)
Definition main (interrupted : bool) : M World unit :=
  print "🤖 Agentic Debugger - WebSocket Agent Example" ;;
  print ("Connecting to: " ++ WS_URL) ;;
  print "" ;;
  let ws := new_WebSocketApp WS_URL None in
  print "📋 Setting up debugging session..." ;;
  print "Setting breakpoints with batch command..." ;;
  result <- batch_execute setup_commands ;;
  ok <- try (py_getitem result "ok") ;;
  (if py_truth ok then
     successCount <- try (py_getitem result "successCount") ;;
     print ("✅ Setup complete (" ++ py_str successCount ++ " commands executed)")
   else ret tt) ;;
  print "" ;;
  print "🚀 Starting debug session..." ;;
  execute_command "start" [] ;;
  print "Now listening for real-time state changes via WebSocket..." ;;
  print "(Press Ctrl+C to stop)" ;;
  print "" ;;
  run_forever ws ;;
  if interrupted then
    print (nl ++ "👋 Stopping agent...") ;;
    ws_close ws
  else ret tt.
End Script.
End WebSocketAgent.

(** ** autonomous_debug_agent.py *)

Module AutonomousDebugAgent.
Section Script.
Context {FM : FloatModel} {host : Host} (discovery : Discovery).

Definition BASE_URL : string := "http://localhost:" ++ str_of_Z (port discovery).
Definition WS_URL : string := "ws://localhost:" ++ str_of_Z (port discovery) ++ "/ws".
Definition API_KEY : string := defaultApiKey discovery.
Definition HEADERS : list (string * string) := [(keyHeader discovery, API_KEY)].

(** The fields of an [AutonomousDebugAgent]. *)
Record Agent : Type := {
  ws : option WebSocketApp;
  running : bool;
  current_state : JSON;
  error_history : list JSON
}.

(** [__init__] *)
Definition init : Agent :=
  {| ws := None; running := false; current_state := JDict []; error_history := [] |}.

(** A method runs on the agent it is called on and on the world. *)
Record AgentWorld : Type := {
  self : Agent;
  world : World
}.

Definition io {A} (m : M World A) : M AgentWorld A :=
  fun s => let (r, w) := m (world s) in (r, {| self := self s; world := w |}).

Definition update (f : Agent -> Agent) : M AgentWorld unit :=
  fun s => (Return tt, {| self := f (self s); world := world s |}).

Definition set_ws (v : WebSocketApp) (a : Agent) : Agent :=
  {| ws := Some v; running := running a;
     current_state := current_state a; error_history := error_history a |}.

Definition set_running (v : bool) (a : Agent) : Agent :=
  {| ws := ws a; running := v;
     current_state := current_state a; error_history := error_history a |}.

Definition set_current_state (v : JSON) (a : Agent) : Agent :=
  {| ws := ws a; running := running a;
     current_state := v; error_history := error_history a |}.

Definition execute_command (action : string) (kwargs : list (string * JSON))
  : M AgentWorld JSON :=
  if dict_has "action" kwargs then raise TypeError
  else
    let cmd := JDict (("action", JStr action) :: kwargs) in
    resp <- io (requests_post (BASE_URL ++ "/command") cmd HEADERS) ;;
    resp_json resp.

Definition batch_execute (commands : JSON) : M AgentWorld JSON :=
  let batch := JDict [("commands", commands); ("stopOnError", JBool false)] in
  resp <- io (requests_post (BASE_URL ++ "/batch") batch HEADERS) ;;
  resp_json resp.

Definition get_errors : M AgentWorld JSON :=
  resp <- io (requests_get (BASE_URL ++ "/errors") HEADERS) ;;
  resp_json resp.

(** The pane's text, or [None] for Python's None. *)
Definition get_output (pane : string) : M AgentWorld (option string) :=
  resp <- io (requests_get (BASE_URL ++ "/output/" ++ pane) HEADERS) ;;
  if (status_code resp =? 200)%Z then ret (Some (text resp))
  else ret None.

Definition get_logs : M AgentWorld JSON :=
  resp <- io (requests_get (BASE_URL ++ "/logs") HEADERS) ;;
  resp_json resp.

Definition analyze_error (error_item : JSON) : M AgentWorld (list string) :=
  description <- try (py_get error_item "description" (JStr "")) ;;
  file_path <- try (py_get error_item "file" (JStr "")) ;;
  line <- try (py_get error_item "line" (JInt 0)) ;;
  io (print (nl ++ "🔍 Analyzing error:")) ;;
  io (print ("   File: " ++ py_str file_path ++ ":" ++ py_str line)) ;;
  io (print ("   Error: " ++ py_str description)) ;;
  let suggestions : list string := [] in
  lowered <- try (py_lower description) ;;
  if contains "not defined" lowered || contains "does not exist" lowered then
    let suggestions := append suggestions "Missing import or undefined variable" in
    let suggestions :=
      append suggestions ("Action: Check imports at " ++ py_str file_path) in
    ret suggestions
  else if contains "null reference" lowered then
    let suggestions := append suggestions "Null reference exception" in
    let suggestions :=
      append suggestions ("Action: Add null check at line " ++ py_str line) in
    ret suggestions
  else if contains "type mismatch" lowered || contains "cannot convert" lowered then
    let suggestions := append suggestions "Type conversion issue" in
    let suggestions := append suggestions "Action: Check type compatibility" in
    ret suggestions
  else ret suggestions.

Definition handle_exception (snapshot : JSON) : M AgentWorld unit :=
  exception <- try (py_get snapshot "exception" (JStr "")) ;;
  locals_dict <- try (py_get snapshot "locals" (JDict [])) ;;
  io (print (nl ++ "🐛 Exception Handler:")) ;;
  io (print ("   Type: " ++ py_str exception)) ;;
  keys <- try (py_keys locals_dict) ;;
  io (print ("   Local variables: " ++ py_repr (JList (map JStr (firstn 10 keys))))) ;;
  null_reference <- try (py_in "NullReferenceException" exception) ;;
  if null_reference then
    io (print (nl ++ "💡 Suggestion: Add null checks before object access")) ;;
    io (print "   Example: if (obj != null) { obj.Method(); }")
  else
    index_out_of_range <- try (py_in "IndexOutOfRangeException" exception) ;;
    if index_out_of_range then
      io (print (nl ++ "💡 Suggestion: Validate array/list bounds")) ;;
      io (print "   Example: if (index >= 0 && index < array.Length)")
    else ret tt.

Definition show_suggestion (suggestion : string) : M AgentWorld bool :=
  io (print ("      💡 " ++ suggestion)) ;;
  ret false.

Definition report_error (error : JSON) : M AgentWorld bool :=
  suggestions <- analyze_error error ;;
  for_each (firstn 2 suggestions) show_suggestion ;;
  ret false.

(** [sum(log.get('durationMs', 0) for log in logs)], from the total so
    far. *)
Fixpoint sum_durations (total : Num) (logs : list JSON) : Result Num :=
  match logs with
  | [] => Return total
  | log :: logs' =>
      match py_get log "durationMs" (JInt 0) with
      | Return d => match py_add total d with
                    | Return total' => sum_durations total' logs'
                    | Raise e => Raise e
                    end
      | Raise e => Raise e
      end
  end.

Definition analyze_session : M AgentWorld unit :=
  io (print (nl ++ "📊 Session Analysis:")) ;;
  errors <- get_errors ;;
  (if py_truth errors then
     n <- try (py_len errors) ;;
     io (print ("   ⚠️  " ++ str_of_Z n ++ " errors/warnings found:")) ;;
     shown <- try (py_slice_to 5 errors) ;;
     items <- try (py_iter shown) ;;
     for_each items report_error
   else ret tt) ;;
  build_output <- get_output "Build" ;;
  (match build_output with
   | Some out =>
       if negb (String.eqb out "") && contains "error" (lower out) then
         io (print "   📝 Build output contains errors (check /output/Build)")
       else ret tt
   | None => ret tt
   end) ;;
  logs <- get_logs ;;
  (if py_truth logs then
     items <- try (py_iter logs) ;;
     total <- try (sum_durations (NInt 0) items) ;;
     n <- try (py_len logs) ;;
     avg_time <- try (py_truediv total n) ;;
     io (print ("   ⏱️  Average API response time: " ++ format_float ".1f" avg_time ++ "ms"))
   else ret tt) ;;
  io (print (nl ++ "✅ Analysis complete")).

Definition on_message (message : string) : M AgentWorld unit :=
  data <- (match json_loads message with
           | Some j => ret j
           | None => raise JSONDecodeError
           end) ;;
  event_type <- try (py_get data "type" JNull) ;;
  if py_eq_str event_type "connected" then
    connectionId <- try (py_getitem data "connectionId") ;;
    io (print ("✅ Agent connected: " ++ py_str connectionId))
  else if py_eq_str event_type "stateChange" then
    snapshot <- try (py_getitem data "snapshot") ;;
    update (set_current_state snapshot) ;;
    mode <- try (py_getitem snapshot "mode") ;;
    io (print (nl ++ "🔔 State: " ++ py_str mode)) ;;
    if py_eq_str mode "Break" then
      exception <- try (py_get snapshot "exception" JNull) ;;
      if py_truth exception then
        io (print ("   ⚠️  Exception: " ++ py_str exception)) ;;
        handle_exception snapshot
      else
        file <- try (py_get snapshot "file" JNull) ;;
        line <- try (py_get snapshot "line" JNull) ;;
        io (print ("   📍 " ++ py_str file ++ ":" ++ py_str line))
    else if py_eq_str mode "Design" then
      io (print "   ⏹️  Session ended") ;;
      analyze_session
    else ret tt
  else ret tt.

(** The messages the connection delivers, in order.  An exception raised
    by one call of [on_message] ends that call, not the listener. *)
Fixpoint deliver (messages : list string) (s : AgentWorld) : AgentWorld :=
  match messages with
  | [] => s
  | message :: rest => deliver rest (snd (on_message message s))
  end.

Definition analyze_only (error : JSON) : M AgentWorld bool :=
  analyze_error error ;;
  ret false.

Definition cycle_commands : JSON :=
  JList [JDict [("action", JStr "clearBreakpoints")];
         JDict [("action", JStr "setBreakpoint");
                ("file", JStr "C:\Code\Program.cs"); ("line", JInt 42)];
         JDict [("action", JStr "start")]].

Definition run_debugging_cycle : M AgentWorld unit :=
  io (print (nl ++ "🔄 Starting automated debugging cycle...")) ;;
  io (print (nl ++ "1️⃣ Building solution...")) ;;
  result <- execute_command "build" [] ;;
  ok <- try (py_get result "ok" JNull) ;;
  (if py_truth ok then io (print "   ✅ Build triggered") else ret tt) ;;
  io (sleep 2000) ;;
  errors <- get_errors ;;
  if py_truth errors then
    n <- try (py_len errors) ;;
    io (print (nl ++ "2️⃣ Found " ++ str_of_Z n ++ " errors - analyzing...")) ;;
    shown <- try (py_slice_to 3 errors) ;;
    items <- try (py_iter shown) ;;
    for_each items analyze_only
  else
    io (print (nl ++ "2️⃣ No build errors found!")) ;;
    io (print (nl ++ "3️⃣ Starting debug session...")) ;;
    batch_execute cycle_commands ;;
    ret tt.

Fixpoint monitor (ticks : nat) : M AgentWorld unit :=
  match ticks with
  | O => ret tt
  | S ticks' => io (sleep 1000) ;; monitor ticks'
  end.

(** [start], left by Ctrl+C after [ticks] rounds of its monitoring loop.
    [run_forever] is handed to a daemon thread, and [start] goes on after
    one second whether or not the thread has connected by then; what the
    thread receives is [deliver]'s. *)
Definition start (ticks : nat) : M AgentWorld unit :=
  io (print "🤖 Autonomous Debugging Agent Starting...") ;;
  io (print ("   Base URL: " ++ BASE_URL)) ;;
  io (print ("   WebSocket: " ++ WS_URL)) ;;
  io (print "") ;;
  update (set_running true) ;;
  let app := new_WebSocketApp WS_URL None in
  update (set_ws app) ;;
  io (Thread_start_run_forever app) ;;
  io (sleep 1000) ;;
  run_debugging_cycle ;;
  io (print (nl ++ "📡 Monitoring for state changes... (Ctrl+C to stop)")) ;;
  monitor ticks ;;
  io (print (nl ++ "👋 Stopping agent...")) ;;
  io (ws_close app).
End Script.
End AutonomousDebugAgent.

(** ** What the contracts speak of *)

Section Contracts.
Context {FM : FloatModel} {host : Host} (discovery : Discovery).

(** The address of an endpoint of the bridge. *)
Definition endpoint (path : string) : string :=
  "http://localhost:" ++ str_of_Z (port discovery) ++ path.

(** The one header carrying the API key. *)
Definition key_header : list (string * string) :=
  [(keyHeader discovery, defaultApiKey discovery)].

(** [POST path] with a JSON body, and [GET path]. *)
Definition post_to (path : string) (body : JSON) : Request :=
  {| method := POST; url := endpoint path; headers := key_header; json := Some body |}.

Definition get_from (path : string) : Request :=
  {| method := GET; url := endpoint path; headers := key_header; json := None |}.

(** [{action, ...fields}] *)
Definition command_body (action : string) (fields : list (string * JSON)) : JSON :=
  JDict (("action", JStr action) :: fields).

(** [{commands, stopOnError}] *)
Definition batch_body (commands : JSON) (stopOnError : bool) : JSON :=
  JDict [("commands", commands); ("stopOnError", JBool stopOnError)].

(** The decoded body of a response. *)
Definition decoded (resp : Response) : Result JSON :=
  match json_loads (text resp) with
  | Some j => Return j
  | None => Raise JSONDecodeError
  end.

(** What a helper that sends [r] and decodes the answer returns. *)
Definition answer (w : World) (r : Request) : Result JSON :=
  match bridge w r with
  | Some resp => decoded resp
  | None => Raise ConnectionError
  end.

(** The agent and the world after a method sent [r]. *)
Definition sent_by (s : AutonomousDebugAgent.AgentWorld) (r : Request)
  : AutonomousDebugAgent.AgentWorld :=
  {| AutonomousDebugAgent.self := AutonomousDebugAgent.self s;
     AutonomousDebugAgent.world := (AutonomousDebugAgent.world s ++ [EvRequest r])%list |}.

(** [d.get(k, default)] on the items of a dict. *)
Definition field (k : string) (default : JSON) (d : list (string * JSON)) : JSON :=
  match dict_get k d with
  | Some v => v
  | None => default
  end.

(** [needle] occurs in [description], letter case aside. *)
Definition mentions (needle description : string) : bool :=
  contains needle (lower description).

(** The kinds of error the matcher knows, and which one a description falls
    under: the first that applies, in this order. *)
Inductive Category : Type :=
| UndefinedName
| NullReference
| TypeConversion.

Definition classify (description : string) : option Category :=
  if mentions "not defined" description || mentions "does not exist" description
  then Some UndefinedName
  else if mentions "null reference" description
  then Some NullReference
  else if mentions "type mismatch" description || mentions "cannot convert" description
  then Some TypeConversion
  else None.

Definition suggestions (c : option Category) (file_path line : JSON) : list string :=
  match c with
  | Some UndefinedName =>
      ["Missing import or undefined variable";
       "Action: Check imports at " ++ py_str file_path]
  | Some NullReference =>
      ["Null reference exception";
       "Action: Add null check at line " ++ py_str line]
  | Some TypeConversion =>
      ["Type conversion issue"; "Action: Check type compatibility"]
  | None => []
  end.

(** What [analyze_error] prints about an error item. *)
Definition analysis_header (d : list (string * JSON)) : World :=
  [EvPrint (nl ++ "🔍 Analyzing error:");
   EvPrint ("   File: " ++ py_str (field "file" (JStr "") d) ++ ":"
            ++ py_str (field "line" (JInt 0) d));
   EvPrint ("   Error: " ++ py_str (field "description" (JStr "") d))].

(** The snapshot
    [{"mode": "Break", "exception": "NullReferenceException", "locals": {}}]
    and the [stateChange] message that brings it. *)
Definition null_reference_snapshot : JSON :=
  JDict [("mode", JStr "Break");
         ("exception", JStr "NullReferenceException");
         ("locals", JDict [])].

Definition break_on_null_reference : JSON :=
  JDict [("type", JStr "stateChange"); ("snapshot", null_reference_snapshot)].

(** What the agent prints on that message. *)
Definition null_reference_report : World :=
  [EvPrint (nl ++ "🔔 State: Break");
   EvPrint "   ⚠️  Exception: NullReferenceException";
   EvPrint (nl ++ "🐛 Exception Handler:");
   EvPrint "   Type: NullReferenceException";
   EvPrint ("   Local variables: " ++ py_repr (JList []));
   EvPrint (nl ++ "💡 Suggestion: Add null checks before object access");
   EvPrint "   Example: if (obj != null) { obj.Method(); }"].

(** The snapshot a message brings: that of a [stateChange] message. *)
Definition snapshot_of (message : string) : option JSON :=
  match json_loads message with
  | Some (JDict d) =>
      match dict_get "type" d with
      | Some event_type =>
          if py_eq_str event_type "stateChange" then dict_get "snapshot" d else None
      | None => None
      end
  | _ => None
  end.

(** The snapshot of the most recent [stateChange] message, or [initial]
    when there was none. *)
Definition last_snapshot (messages : list string) (initial : JSON) : JSON :=
  fold_left (fun current message =>
               match snapshot_of message with
               | Some snapshot => snapshot
               | None => current
               end) messages initial.

(** The agent is left as it was. *)
Definition same_agent (s s' : AutonomousDebugAgent.AgentWorld) : Prop :=
  AutonomousDebugAgent.self s' = AutonomousDebugAgent.self s.

(** The duration a log entry records, when it is an int. *)
Definition duration_of (log : JSON) : option Z :=
  match log with
  | JDict d => match dict_get "durationMs" d with
               | Some (JInt z) => Some z
               | _ => None
               end
  | _ => None
  end.

(** The sum of the durations the entries record. *)
Definition recorded_total (logs : list JSON) : Z :=
  fold_right Z.add 0%Z
    (flat_map (fun log => match duration_of log with
                          | Some z => [z]
                          | None => []
                          end) logs).

(** An entry of the request log: a dict whose [durationMs], when it has
    one, is an int. *)
Definition log_entry (log : JSON) : Prop :=
  exists d, log = JDict d
            /\ (dict_get "durationMs" d = None
                \/ exists z, dict_get "durationMs" d = Some (JInt z)).

(** The polls and the sleeps among some events. *)
Definition is_request (e : Event) : bool :=
  match e with EvRequest _ => true | _ => false end.

Definition is_sleep (e : Event) : bool :=
  match e with EvSleep _ => true | _ => false end.

Definition polls (events : World) : nat := List.length (filter is_request events).

Definition sleeps (events : World) : nat := List.length (filter is_sleep events).

(** The mode of the snapshot the bridge returns to request [r] when the
    script has done [w]; [None] when the answer holds no such mode. *)
Definition fetched_mode (w : World) (r : Request) : option JSON :=
  match answer w r with
  | Return state =>
      match py_getitem state "snapshot" with
      | Return snapshot =>
          match py_getitem snapshot "mode" with
          | Return mode => Some mode
          | Raise _ => None
          end
      | Raise _ => None
      end
  | Raise _ => None
  end.

(** Once a poll fetched the mode Break, the loop neither sleeps nor polls
    again. *)
Definition after_break (w new : World) : Prop :=
  forall pre r post mode,
    new = (pre ++ EvRequest r :: post)%list ->
    fetched_mode (w ++ pre)%list r = Some mode ->
    py_eq_str mode "Break" = true ->
    polls post = 0%nat /\ sleeps post = 0%nat.

(** Every poll fetched a mode, and never Break. *)
Definition never_break (w new : World) : Prop :=
  forall pre r post,
    new = (pre ++ EvRequest r :: post)%list ->
    exists mode,
      fetched_mode (w ++ pre)%list r = Some mode /\ py_eq_str mode "Break" = false.

(** What the polling loop may do: fetch [/state], print, sleep 500ms. *)
Definition poll_event (e : Event) : Prop :=
  match e with
  | EvRequest r => r = get_from "/state"
  | EvPrint _ => True
  | EvSleep ms => ms = 500%Z
  | _ => False
  end.

(** A header list that carries the API key under the name the discovery
    file gives. *)
Definition carries_key (hs : list (string * string)) : Prop :=
  dict_get (keyHeader discovery) hs = Some (defaultApiKey discovery).

(** C7 as stated: the key goes with every HTTP request and with the
    WebSocket handshake. *)
Definition key_everywhere (e : Event) : Prop :=
  match e with
  | EvRequest r => carries_key (headers r)
  | EvWsConnect _ header => carries_key header
  | EvThreadStart _ header => carries_key header
  | _ => True
  end.

(** What the scripts do: the key goes with every HTTP request, and the
    handshake is sent without extra headers, by the script itself or by the
    thread it starts. *)
Definition key_on_http (e : Event) : Prop :=
  match e with
  | EvRequest r => carries_key (headers r)
  | EvWsConnect _ header => header = []
  | EvThreadStart _ header => header = []
  | _ => True
  end.

(** [w'] is [w] followed by events that all satisfy [P]. *)
Definition extends (P : Event -> Prop) (w w' : World) : Prop :=
  exists new, w' = (w ++ new)%list /\ Forall P new.

Definition agent_extends (P : Event -> Prop) (s s' : AutonomousDebugAgent.AgentWorld)
  : Prop :=
  extends P (AutonomousDebugAgent.world s) (AutonomousDebugAgent.world s').

(** The same host, except that every response of its bridge carries the
    status code [code]. *)
Definition with_status (code : Z) : Host :=
  {| json_loads := json_loads;
     py_repr := py_repr;
     format_float := format_float;
     format_int := format_int;
     time_time := time_time;
     bridge := fun w r =>
       match bridge w r with
       | Some resp => Some {| status_code := code; text := text resp |}
       | None => None
       end |}.
End Contracts.

(** A computation whose every run relates the state before to the state
    after, however it ends. *)
Definition preserves {S A} (R : S -> S -> Prop) (m : M S A) : Prop :=
  forall s, R s (snd (m s)).

(** A computation that never ends by raising [e]. *)
Definition never {S A} (e : exn) (m : M S A) : Prop :=
  forall s, fst (m s) <> Raise e.

(** ** What the runs speak of *)

Section RunContracts.
Context {FM : FloatModel} {host : Host} (discovery : Discovery).

(** A line on standard output. *)
Definition printed (e : Event) : Prop := exists line, e = EvPrint line.

(** What goes over the network: requests, and the opening and closing of
    the WebSocket by the script itself. *)
Definition is_wire (e : Event) : bool :=
  match e with
  | EvPrint _ | EvSleep _ | EvThreadStart _ _ => false
  | _ => true
  end.



Definition wire (events : World) : list Event := filter is_wire events.

Definition is_prefix {A} (l l' : list A) : Prop := exists rest, l' = (l ++ rest)%list.

(** Every run of [m] appends events to the trace [tr] reads off the state,
    and [Q] holds of the trace before, the outcome and the events added. *)
Definition emits {S A} (tr : S -> World) (Q : World -> Result A -> World -> Prop)
    (m : M S A) : Prop :=
  forall s, exists new,
    tr (snd (m s)) = (tr s ++ new)%list /\ Q (tr s) (fst (m s)) new.

(** The trace of a script without an agent is its state. *)
Definition whole (w : World) : World := w.

(** The network sees [es], in this order, when the run returns, and a
    prefix of [es] when it raises. *)
Definition on_wire_exactly {A} (es : list Event)
  : World -> Result A -> World -> Prop :=
  fun _ r new => is_prefix (wire new) es /\ forall a, r = Return a -> wire new = es.

(** The network sees a prefix of [es]. *)
Definition on_wire_within {A} (es : list Event)
  : World -> Result A -> World -> Prop :=
  fun _ _ new => is_prefix (wire new) es.

(** Only lines are printed. *)
Definition only_prints {A} : World -> Result A -> World -> Prop :=
  fun _ _ new => Forall printed new.

(** The requests of [analyze_session]. *)
Definition session_requests : list Event :=
  [EvRequest (get_from discovery "/errors");
   EvRequest (get_from discovery "/output/Build");
   EvRequest (get_from discovery "/logs")].

(** The requests of [run_debugging_cycle]. *)
Definition build_request : Request :=
  post_to discovery "/command" (command_body "build" []).

Definition start_session_request : Request :=
  post_to discovery "/batch" (batch_body AutonomousDebugAgent.cycle_commands false).

Definition cycle_requests : list Event :=
  [EvRequest build_request;
   EvRequest (get_from discovery "/errors");
   EvRequest start_session_request].

(** The debug session is started only after [/errors] answered with a
    value that is false: an empty list, in practice. *)
Definition started_without_errors : World -> Result unit -> World -> Prop :=
  fun w _ new =>
    In (EvRequest start_session_request) new ->
    exists pre post errors,
      new = (pre ++ EvRequest (get_from discovery "/errors") :: post)%list
      /\ answer (w ++ pre)%list (get_from discovery "/errors") = Return errors
      /\ py_truth errors = false.

(** The mode a message brings, and whether it is the one that ends a
    session. *)
Definition mode_of (message : string) : option JSON :=
  match snapshot_of message with
  | Some snapshot =>
      match py_getitem snapshot "mode" with
      | Return mode => Some mode
      | Raise _ => None
      end
  | None => None
  end.

Definition ends_session (message : string) : bool :=
  match mode_of message with
  | Some mode => py_eq_str mode "Design"
  | None => false
  end.


(** Why a message cannot be read as an event: it is no JSON text, or it
    decodes to something other than an object. *)
Definition decoding_error (message : string) : option exn :=
  match json_loads message with
  | None => Some JSONDecodeError
  | Some (JDict _) => None
  | Some _ => Some AttributeError
  end.


(** What [handle_exception] prints first, and the advice it has for an
    exception. *)
Definition exception_header (exception : JSON) (locals : list (string * JSON)) : World :=
  [EvPrint (nl ++ "🐛 Exception Handler:");
   EvPrint ("   Type: " ++ py_str exception);
   EvPrint ("   Local variables: "
            ++ py_repr (JList (map JStr (firstn 10 (dict_keys locals)))))].

Definition exception_advice (exception : string) : World :=
  if contains "NullReferenceException" exception then
    [EvPrint (nl ++ "💡 Suggestion: Add null checks before object access");
     EvPrint "   Example: if (obj != null) { obj.Method(); }"]
  else if contains "IndexOutOfRangeException" exception then
    [EvPrint (nl ++ "💡 Suggestion: Validate array/list bounds");
     EvPrint "   Example: if (index >= 0 && index < array.Length)"]
  else [].

Definition is_dict (x : JSON) : bool :=
  match x with JDict _ => true | _ => false end.

Definition is_str (x : JSON) : bool :=
  match x with JStr _ => true | _ => false end.

(** What [sum] can add up: ints, floats and booleans. *)
Definition is_number (x : JSON) : bool :=
  match x with
  | JInt _ | JFloat _ | JBool _ => true
  | _ => false
  end.

(** A poll whose answer holds no mode is the last thing the loop does, and
    the loop ends with the exception. *)
Definition stops_at_failure (w new : World) (r : Result unit) : Prop :=
  forall pre request post,
    new = (pre ++ EvRequest request :: post)%list ->
    fetched_mode (w ++ pre)%list request = None ->
    post = [] /\ exists e, r = Raise e.

(** The lines [websocket_agent.py] prints for the frames of a stack: a
    heading and the top three, numbered from 1; nothing for an empty
    stack. *)
Definition frame_line (numbered : nat * JSON) : Event :=
  EvPrint ("      " ++ str_of_nat (fst numbered + 1) ++ ". " ++ py_str (snd numbered)).

Definition stack_report (frames : list JSON) : World :=
  match frames with
  | [] => []
  | _ => EvPrint "   📚 Stack:"
         :: map frame_line (combine (seq 0 (List.length (firstn 3 frames)))
                                    (firstn 3 frames))
  end.

Definition break_report (snapshot : list (string * JSON)) (locals : list (string * JSON))
  : World :=
  [EvPrint (nl ++ "🔔 State Change: Break");
   EvPrint ("   📍 File: " ++ py_str (field "file" (JStr "unknown") snapshot));
   EvPrint ("   📍 Line: " ++ py_str (field "line" (JStr "?") snapshot));
   EvPrint ("   🔍 Locals: " ++ str_of_Z (Z.of_nat (List.length locals)) ++ " variables")].

(** The errors a run analysed: [analyze_error] announces each with the
    same line. *)
Definition is_analysis (e : Event) : bool :=
  match e with
  | EvPrint line => String.eqb line (nl ++ "🔍 Analyzing error:")
  | _ => false
  end.

Definition analyses (events : World) : nat := List.length (filter is_analysis events).

Definition at_most_analyses {A} (n : nat) : World -> Result A -> World -> Prop :=
  fun _ _ new => (analyses new <= n)%nat.

(** What [websocket_agent.py] puts on the network. *)
Definition websocket_main_wire (interrupted : bool) : list Event :=
  ([EvRequest (post_to discovery "/batch"
                 (batch_body WebSocketAgent.setup_commands true));
    EvRequest (post_to discovery "/command" (command_body "start" []));
    EvWsConnect (WebSocketAgent.WS_URL discovery) []]
   ++ if interrupted then [EvWsClose] else [])%list.

(** The requests of [basic_agent.py]. *)
Definition set_breakpoint_request (file : string) (line : Z) : Request :=
  post_to discovery "/command"
    (command_body "setBreakpoint" (BasicAgent.breakpoint_at file line)).

Definition basic_main_requests : list Event :=
  ([EvRequest (get_from discovery "/state");
    EvRequest (set_breakpoint_request "C:\Code\Program.cs" 10);
    EvRequest (set_breakpoint_request "C:\Code\Worker.cs" 25);
    EvRequest (set_breakpoint_request "C:\Code\Service.cs" 42);
    EvRequest (post_to discovery "/batch"
                 (batch_body
                    (JList [BasicAgent.setBreakpoint "C:\Code\Program.cs" 15;
                            BasicAgent.setBreakpoint "C:\Code\Worker.cs" 30;
                            BasicAgent.setBreakpoint "C:\Code\Service.cs" 45]) true));
    EvRequest (get_from discovery "/errors");
    EvRequest (get_from discovery "/metrics");
    EvRequest (post_to discovery "/command" (command_body "start" []))]
   ++ repeat (EvRequest (get_from discovery "/state")) 10)%list.
End RunContracts.

(** ** A mock bridge *)

Module Mock.
(** Exact rationals in place of binary64: enough to run the scripts on
    the mocks below. *)
Definition exact_floats : FloatModel :=
  {| pyfloat := Q;
     float_truth := fun x => negb (Qeq_bool x 0);
     float_of_int := fun z => Some (inject_Z z);
     float_add := Qplus;
     float_sub := Qminus;
     float_div := Qdiv;
     int_truediv := fun a b => Some (Qdiv (inject_Z a) (inject_Z b)) |}.

Section Hosts.
#[local] Existing Instance exact_floats.

Definition quoted (s : string) : string :=
  String "034"%char s ++ String "034"%char "".

(** A bridge that answers every request with the same response, and a
    decoder that knows the given texts. *)
Definition host (texts : list (string * JSON)) (resp : Response) : Host :=
  {| json_loads := fun s => dict_get s texts;
     py_repr := fun _ => "...";
     format_float := fun _ _ => "...";
     format_int := fun _ _ => "...";
     time_time := fun w => inject_Z (Z.of_nat (List.length w));
     bridge := fun _ _ => Some resp |}.

Definition discovery : Discovery :=
  {| port := 27183; defaultApiKey := "dev"; keyHeader := "X-Api-Key" |}.

(** [{"ok": true}] *)
Definition ok_text : string := "{" ++ quoted "ok" ++ ": true}".
Definition ok_body : JSON := JDict [("ok", JBool true)].
Definition ok_host : Host :=
  host [(ok_text, ok_body)] {| status_code := 200; text := ok_text |}.

(** [{"ok": true, "successCount": 3, "failureCount": 0}] *)
Definition counts_text : string :=
  "{" ++ quoted "ok" ++ ": true, " ++ quoted "successCount" ++ ": 3, "
      ++ quoted "failureCount" ++ ": 0}".
Definition counts_body : JSON :=
  JDict [("ok", JBool true); ("successCount", JInt 3); ("failureCount", JInt 0)].
Definition counts_host : Host :=
  host [(counts_text, counts_body)] {| status_code := 200; text := counts_text |}.

Definition three_commands : JSON :=
  JList [BasicAgent.setBreakpoint "C:\Code\Program.cs" 15;
         BasicAgent.setBreakpoint "C:\Code\Worker.cs" 30;
         BasicAgent.setBreakpoint "C:\Code\Service.cs" 45].

(** [{"file": "a.cs", "line": 10, "description": "X is not defined"}] *)
Definition undefined_X : list (string * JSON) :=
  [("file", JStr "a.cs"); ("line", JInt 10); ("description", JStr "X is not defined")].

(** The text of [break_on_null_reference], and a host that decodes it. *)
Definition break_text : string :=
  "{" ++ quoted "type" ++ ":" ++ quoted "stateChange" ++ ","
      ++ quoted "snapshot" ++ ":{" ++ quoted "mode" ++ ":" ++ quoted "Break" ++ ","
      ++ quoted "exception" ++ ":" ++ quoted "NullReferenceException" ++ ","
      ++ quoted "locals" ++ ":{}}}".

Definition break_host : Host :=
  host [(break_text, break_on_null_reference)] {| status_code := 200; text := ok_text |}.

(** [/state] answers: running, and stopped at a breakpoint. *)
Definition run_text : string :=
  "{" ++ quoted "snapshot" ++ ":{" ++ quoted "mode" ++ ":" ++ quoted "Run" ++ "}}".
Definition run_state : JSON := JDict [("snapshot", JDict [("mode", JStr "Run")])].

Definition stopped_text : string :=
  "{" ++ quoted "snapshot" ++ ":{" ++ quoted "mode" ++ ":" ++ quoted "Break" ++ ","
      ++ quoted "locals" ++ ":{" ++ quoted "x" ++ ":1}}}".
Definition stopped_state : JSON :=
  JDict [("snapshot", JDict [("mode", JStr "Break"); ("locals", JDict [("x", JInt 1)])])].

(** A bridge whose program runs for [k] polls and then hits a breakpoint. *)
Definition breaking_host (k : nat) : Host :=
  {| json_loads := fun s => dict_get s [(run_text, run_state); (stopped_text, stopped_state)];
     py_repr := fun _ => "...";
     format_float := fun _ _ => "...";
     format_int := fun _ _ => "...";
     time_time := fun w => inject_Z (Z.of_nat (List.length w));
     bridge := fun w _ =>
       Some {| status_code := 200;
               text := if (polls w <? k)%nat then run_text else stopped_text |} |}.

(** A bridge that answers 404 with an error page. *)
Definition missing_host : Host :=
  host [] {| status_code := 404; text := "Not Found" |}.

(** Log entries, one of them without a duration. *)
Definition some_logs : list JSON :=
  [JDict [("path", JStr "/state"); ("durationMs", JInt 12)];
   JDict [("path", JStr "/batch")];
   JDict [("path", JStr "/errors"); ("durationMs", JInt 30)]].

(** A heartbeat, and a state change that forgot the mode. *)
Definition pong_text : string := "{" ++ quoted "type" ++ ":" ++ quoted "pong" ++ "}".
Definition pong_fields : list (string * JSON) := [("type", JStr "pong")].

Definition modeless_text : string :=
  "{" ++ quoted "type" ++ ":" ++ quoted "stateChange" ++ ","
      ++ quoted "snapshot" ++ ":{" ++ quoted "file" ++ ":" ++ quoted "a.cs" ++ "}}".
Definition modeless_snapshot : JSON := JDict [("file", JStr "a.cs")].
Definition modeless_fields : list (string * JSON) :=
  [("type", JStr "stateChange"); ("snapshot", modeless_snapshot)].

Definition events_host : Host :=
  host [(pong_text, JDict pong_fields); (modeless_text, JDict modeless_fields);
        ("[]", JList [])]
       {| status_code := 200; text := ok_text |}.

(** A snapshot whose locals are null, and one with a deep stack. *)
Definition null_locals : list (string * JSON) :=
  [("mode", JStr "Break"); ("exception", JStr "NullReferenceException");
   ("locals", JNull)].

Definition deep_snapshot : list (string * JSON) :=
  [("mode", JStr "Break"); ("file", JStr "a.cs"); ("line", JInt 7);
   ("locals", JDict [("x", JInt 1)]);
   ("stack", JList [JStr "f"; JStr "g"; JStr "h"; JStr "i"; JStr "main"])].

Definition deep_fields : list (string * JSON) :=
  [("type", JStr "stateChange"); ("snapshot", JDict deep_snapshot)].

Definition deep_host : Host :=
  host [("deep", JDict deep_fields)] {| status_code := 200; text := ok_text |}.

(** A snapshot stopped on an index out of range, an error item without a
    text, and a log entry without a duration. *)
Definition index_snapshot : list (string * JSON) :=
  [("mode", JStr "Break"); ("exception", JStr "System.IndexOutOfRangeException");
   ("locals", JDict [("i", JInt 5); ("items", JList [])])].

Definition textless_error : list (string * JSON) :=
  [("file", JStr "a.cs"); ("line", JInt 3); ("description", JNull)].

Definition null_duration : list (string * JSON) :=
  [("path", JStr "/logs"); ("durationMs", JNull)].

Definition fresh_agent : AutonomousDebugAgent.AgentWorld :=
  {| AutonomousDebugAgent.self := AutonomousDebugAgent.init;
     AutonomousDebugAgent.world := [] |}.
End Hosts.
End Mock.

(** * Properties *)

(** ** The HTTP command client *)

Section CommandClient.
Context {FM : FloatModel} {host : Host} (discovery : Discovery).

(** Sending a request and decoding the answer, run on a world. *)
Lemma send_decode (r : Request) (w : World) :
  (resp <- send r ;; resp_json resp) w = (answer w r, (w ++ [EvRequest r])%list).
Proof.
  unfold bind, send, answer, decoded, resp_json.
  destruct (bridge w r) as [resp|]; [|reflexivity].
  destruct (json_loads (text resp)); reflexivity.
Qed.

Lemma io_send_decode (r : Request) (s : AutonomousDebugAgent.AgentWorld) :
  (resp <- AutonomousDebugAgent.io (send r) ;; resp_json resp) s
  = (answer (AutonomousDebugAgent.world s) r,
     {| AutonomousDebugAgent.self := AutonomousDebugAgent.self s;
        AutonomousDebugAgent.world :=
          (AutonomousDebugAgent.world s ++ [EvRequest r])%list |}).
Proof.
  unfold bind, AutonomousDebugAgent.io, send, answer, decoded, resp_json.
  destruct (bridge (AutonomousDebugAgent.world s) r) as [resp|]; [|reflexivity].
  destruct (json_loads (text resp)); reflexivity.
Qed.

Lemma answer_decoded (w : World) (r : Request) (resp : Response) (body : JSON) :
  bridge w r = Some resp -> json_loads (text resp) = Some body ->
  answer w r = Return body.
Proof. unfold answer, decoded. intros -> ->. reflexivity. Qed.

(** C1: [execute_command(action, fields...)] sends [POST /command] with
    the body [{action, ...fields}] under the key header and returns the
    decoded response body as it is, in each of the three scripts.  The
    fields are keyword arguments, so none of them is named [action]. *)
Theorem execute_command_contract
    (action : string) (fields : list (string * JSON))
    (w : World) (resp : Response) (body : JSON) :
  dict_has "action" fields = false ->
  bridge w (post_to discovery "/command" (command_body action fields)) = Some resp ->
  json_loads (text resp) = Some body ->
  let sent := (w ++ [EvRequest (post_to discovery "/command"
                                        (command_body action fields))])%list in
  BasicAgent.execute_command discovery action fields w = (Return body, sent)
  /\ WebSocketAgent.execute_command discovery action fields w = (Return body, sent)
  /\ forall a : AutonomousDebugAgent.Agent,
      AutonomousDebugAgent.execute_command discovery action fields
        {| AutonomousDebugAgent.self := a; AutonomousDebugAgent.world := w |}
      = (Return body,
         {| AutonomousDebugAgent.self := a; AutonomousDebugAgent.world := sent |}).
Proof.
  intros Hfresh Hresp Hbody sent.
  pose proof (answer_decoded _ _ _ _ Hresp Hbody) as Hanswer.
  unfold BasicAgent.execute_command, WebSocketAgent.execute_command,
    AutonomousDebugAgent.execute_command.
  rewrite Hfresh.
  repeat split; intros.
  - change (requests_post _ _ _)
      with (send (post_to discovery "/command" (command_body action fields))).
    rewrite send_decode, Hanswer. reflexivity.
  - change (requests_post _ _ _)
      with (send (post_to discovery "/command" (command_body action fields))).
    rewrite send_decode, Hanswer. reflexivity.
  - change (requests_post _ _ _)
      with (send (post_to discovery "/command" (command_body action fields))).
    rewrite io_send_decode. cbn [AutonomousDebugAgent.world AutonomousDebugAgent.self].
    rewrite Hanswer. reflexivity.
Qed.
End CommandClient.

Section CommandClientMock.
#[local] Existing Instance Mock.exact_floats.

(** Against a mock [/command] that answers [{"ok": true}],
    [execute_command("build")] returns that structure. *)
Lemma execute_command_build_ok :
  let sent := [EvRequest (post_to Mock.discovery "/command" (command_body "build" []))] in
  BasicAgent.execute_command (host := Mock.ok_host) Mock.discovery "build" [] []
  = (Return Mock.ok_body, sent)
  /\ WebSocketAgent.execute_command (host := Mock.ok_host) Mock.discovery "build" [] []
     = (Return Mock.ok_body, sent)
  /\ forall a : AutonomousDebugAgent.Agent,
      AutonomousDebugAgent.execute_command (host := Mock.ok_host)
        Mock.discovery "build" []
        {| AutonomousDebugAgent.self := a; AutonomousDebugAgent.world := [] |}
      = (Return Mock.ok_body,
         {| AutonomousDebugAgent.self := a; AutonomousDebugAgent.world := sent |}).
Proof.
  exact (execute_command_contract (host := Mock.ok_host) Mock.discovery
           "build" [] [] {| status_code := 200; text := Mock.ok_text |} Mock.ok_body
           eq_refl eq_refl eq_refl).
Defined.
End CommandClientMock.

(** ** The helpers, one request each *)

Section Helpers.
Context {FM : FloatModel} {host : Host} (discovery : Discovery).

Ltac helper_run :=
  intros;
  match goal with
  | |- context [requests_get ?u ?hs] =>
      change (requests_get u hs) with (send (get_from discovery "/state")) ||
      change (requests_get u hs) with (send (get_from discovery "/errors")) ||
      change (requests_get u hs) with (send (get_from discovery "/metrics")) ||
      change (requests_get u hs) with (send (get_from discovery "/logs"))
  | |- context [requests_post ?u ?b ?hs] =>
      change (requests_post u b hs) with (send (post_to discovery "/batch" b))
  end;
  first [apply send_decode | apply io_send_decode].

Lemma basic_get_state_run (w : World) :
  BasicAgent.get_state discovery w
  = (answer w (get_from discovery "/state"),
     (w ++ [EvRequest (get_from discovery "/state")])%list).
Proof. unfold BasicAgent.get_state. helper_run. Qed.

Lemma basic_get_errors_run (w : World) :
  BasicAgent.get_errors discovery w
  = (answer w (get_from discovery "/errors"),
     (w ++ [EvRequest (get_from discovery "/errors")])%list).
Proof. unfold BasicAgent.get_errors. helper_run. Qed.

Lemma basic_get_metrics_run (w : World) :
  BasicAgent.get_metrics discovery w
  = (answer w (get_from discovery "/metrics"),
     (w ++ [EvRequest (get_from discovery "/metrics")])%list).
Proof. unfold BasicAgent.get_metrics. helper_run. Qed.

Lemma basic_batch_execute_run (commands : JSON) (flag : option bool) (w : World) :
  let stop := match flag with Some b => b | None => true end in
  let r := post_to discovery "/batch" (batch_body commands stop) in
  BasicAgent.batch_execute discovery commands flag w
  = (answer w r, (w ++ [EvRequest r])%list).
Proof. unfold BasicAgent.batch_execute. helper_run. Qed.

Lemma websocket_batch_execute_run (commands : JSON) (w : World) :
  let r := post_to discovery "/batch" (batch_body commands true) in
  WebSocketAgent.batch_execute discovery commands w
  = (answer w r, (w ++ [EvRequest r])%list).
Proof. unfold WebSocketAgent.batch_execute. helper_run. Qed.

Lemma autonomous_batch_execute_run (commands : JSON) (s : AutonomousDebugAgent.AgentWorld) :
  let r := post_to discovery "/batch" (batch_body commands false) in
  AutonomousDebugAgent.batch_execute discovery commands s
  = (answer (AutonomousDebugAgent.world s) r, sent_by s r).
Proof. unfold AutonomousDebugAgent.batch_execute. helper_run. Qed.

Lemma autonomous_get_errors_run (s : AutonomousDebugAgent.AgentWorld) :
  AutonomousDebugAgent.get_errors discovery s
  = (answer (AutonomousDebugAgent.world s) (get_from discovery "/errors"),
     sent_by s (get_from discovery "/errors")).
Proof. unfold AutonomousDebugAgent.get_errors. helper_run. Qed.

Lemma autonomous_get_logs_run (s : AutonomousDebugAgent.AgentWorld) :
  AutonomousDebugAgent.get_logs discovery s
  = (answer (AutonomousDebugAgent.world s) (get_from discovery "/logs"),
     sent_by s (get_from discovery "/logs")).
Proof. unfold AutonomousDebugAgent.get_logs. helper_run. Qed.

(** [execute_command], whether or not the call binds [action] twice. *)
Lemma basic_execute_command_run action (fields : list (string * JSON)) (w : World) :
  let r := post_to discovery "/command" (command_body action fields) in
  BasicAgent.execute_command discovery action fields w
  = if dict_has "action" fields then (Raise TypeError, w)
    else (answer w r, (w ++ [EvRequest r])%list).
Proof.
  unfold BasicAgent.execute_command. destruct (dict_has "action" fields); [reflexivity|].
  change (requests_post _ _ _)
    with (send (post_to discovery "/command" (command_body action fields))).
  apply send_decode.
Qed.

Lemma websocket_execute_command_run action (fields : list (string * JSON)) (w : World) :
  let r := post_to discovery "/command" (command_body action fields) in
  WebSocketAgent.execute_command discovery action fields w
  = if dict_has "action" fields then (Raise TypeError, w)
    else (answer w r, (w ++ [EvRequest r])%list).
Proof.
  unfold WebSocketAgent.execute_command. destruct (dict_has "action" fields); [reflexivity|].
  change (requests_post _ _ _)
    with (send (post_to discovery "/command" (command_body action fields))).
  apply send_decode.
Qed.

Lemma autonomous_execute_command_run action (fields : list (string * JSON))
    (s : AutonomousDebugAgent.AgentWorld) :
  let r := post_to discovery "/command" (command_body action fields) in
  AutonomousDebugAgent.execute_command discovery action fields s
  = if dict_has "action" fields then (Raise TypeError, s)
    else (answer (AutonomousDebugAgent.world s) r, sent_by s r).
Proof.
  unfold AutonomousDebugAgent.execute_command.
  destruct (dict_has "action" fields); [reflexivity|].
  change (requests_post _ _ _)
    with (send (post_to discovery "/command" (command_body action fields))).
  apply io_send_decode.
Qed.

(** [get_output]: the text under status 200, None under any other. *)
Lemma autonomous_get_output_run (pane : string) (s : AutonomousDebugAgent.AgentWorld) :
  let r := get_from discovery ("/output/" ++ pane) in
  AutonomousDebugAgent.get_output discovery pane s
  = (match bridge (AutonomousDebugAgent.world s) r with
     | Some resp =>
         Return (if (status_code resp =? 200)%Z then Some (text resp) else None)
     | None => Raise ConnectionError
     end, sent_by s r).
Proof.
  unfold AutonomousDebugAgent.get_output.
  change (requests_get _ _) with (send (get_from discovery ("/output/" ++ pane))).
  unfold bind, AutonomousDebugAgent.io, send, sent_by; cbn.
  destruct (bridge _ _) as [resp|]; [|reflexivity].
  destruct (status_code resp =? 200)%Z; reflexivity.
Qed.
End Helpers.

(** ** Batches *)

Section Batch.
Context {FM : FloatModel} {host : Host} (discovery : Discovery).

(** C2, as the scripts have it: in [basic_agent.py],
    [batch_execute(commands, stop_on_error)] sends [POST /batch] with the
    body [{commands, stopOnError}] for either flag (true when left out) and
    returns the decoded response as it is; [websocket_agent.py] and
    [autonomous_debug_agent.py] take the commands alone and send
    [stopOnError] fixed to true and to false. *)
Theorem batch_execute_contract (commands : JSON) (w : World) :
  let request stop := post_to discovery "/batch" (batch_body commands stop) in
  let sends stop := (answer w (request stop), (w ++ [EvRequest (request stop)])%list) in
  (forall flag : bool,
     BasicAgent.batch_execute discovery commands (Some flag) w = sends flag)
  /\ BasicAgent.batch_execute discovery commands None w = sends true
  /\ WebSocketAgent.batch_execute discovery commands w = sends true
  /\ forall a : AutonomousDebugAgent.Agent,
      let s := {| AutonomousDebugAgent.self := a; AutonomousDebugAgent.world := w |} in
      AutonomousDebugAgent.batch_execute discovery commands s
      = (answer w (request false), sent_by s (request false)).
Proof.
  cbv zeta. repeat split; intros.
  - apply (basic_batch_execute_run discovery commands (Some flag)).
  - apply (basic_batch_execute_run discovery commands None).
  - apply websocket_batch_execute_run.
  - apply autonomous_batch_execute_run.
Qed.
End Batch.

Section BatchMock.
#[local] Existing Instance Mock.exact_floats.

(** Against a mock [/batch] that answers [successCount = 3] and
    [failureCount = 0], a batch of three commands reports those counts. *)
Lemma batch_execute_counts :
  let result := fst (BasicAgent.batch_execute (host := Mock.counts_host)
                       Mock.discovery Mock.three_commands None []) in
  result = Return Mock.counts_body
  /\ py_getitem Mock.counts_body "successCount" = Return (JInt 3)
  /\ py_getitem Mock.counts_body "failureCount" = Return (JInt 0).
Proof.
  cbv zeta.
  rewrite (proj1 (proj2 (batch_execute_contract (host := Mock.counts_host)
                           Mock.discovery Mock.three_commands []))).
  repeat split.
Defined.

(** C2 fails as stated: the agent's [batch_execute] of
    [autonomous_debug_agent.py] has no [stopOnError] to pass, and what it
    sends is not [{commands, stopOnError: true}]. *)
Lemma autonomous_batch_execute_ignores_flag :
  ~ (forall stopOnError : bool,
       AutonomousDebugAgent.world
         (snd (AutonomousDebugAgent.batch_execute (host := Mock.counts_host)
                 Mock.discovery Mock.three_commands Mock.fresh_agent))
       = [EvRequest (post_to Mock.discovery "/batch"
                       (batch_body Mock.three_commands stopOnError))]).
Proof.
  intros Hall. specialize (Hall true).
  rewrite autonomous_batch_execute_run in Hall.
  unfold sent_by, post_to, batch_body in Hall; cbn in Hall.
  discriminate Hall.
Qed.
End BatchMock.

(** ** Status codes *)

Section Status.
Context {FM : FloatModel} {host : Host} (discovery : Discovery).

Lemma answer_with_status (code : Z) (w : World) (r : Request) :
  answer (host := with_status code) w r = answer w r.
Proof.
  unfold answer, decoded; cbn.
  destruct (bridge w r); reflexivity.
Qed.

(** C6: [get_output] returns the raw text under status 200 and None under
    any other status.  Every other helper sends its one request and returns
    the body of the response decoded as JSON ([answer], which reads the
    text of the response and nothing else of it, and fails where the
    request or the decoding fails); so it returns the same whatever status
    the bridge answers with. *)
Theorem only_get_output_checks_status (code : Z) :
  let sends w r := (answer w r, (w ++ [EvRequest r])%list) in
  let command action fields := post_to discovery "/command" (command_body action fields) in
  let batch commands stop := post_to discovery "/batch" (batch_body commands stop) in
  (forall pane s,
     let r := get_from discovery ("/output/" ++ pane) in
     AutonomousDebugAgent.get_output discovery pane s
     = (match bridge (AutonomousDebugAgent.world s) r with
        | Some resp =>
            Return (if (status_code resp =? 200)%Z then Some (text resp) else None)
        | None => Raise ConnectionError
        end, sent_by s r))
  /\ (forall w, BasicAgent.get_state (host := with_status code) discovery w
               = BasicAgent.get_state discovery w)
  /\ (forall action fields w,
        BasicAgent.execute_command (host := with_status code) discovery action fields w
        = BasicAgent.execute_command discovery action fields w)
  /\ (forall commands flag w,
        BasicAgent.batch_execute (host := with_status code) discovery commands flag w
        = BasicAgent.batch_execute discovery commands flag w)
  /\ (forall w, BasicAgent.get_errors (host := with_status code) discovery w
               = BasicAgent.get_errors discovery w)
  /\ (forall w, BasicAgent.get_metrics (host := with_status code) discovery w
               = BasicAgent.get_metrics discovery w)
  /\ (forall action fields w,
        WebSocketAgent.execute_command (host := with_status code) discovery action fields w
        = WebSocketAgent.execute_command discovery action fields w)
  /\ (forall commands w,
        WebSocketAgent.batch_execute (host := with_status code) discovery commands w
        = WebSocketAgent.batch_execute discovery commands w)
  /\ (forall action fields s,
        AutonomousDebugAgent.execute_command (host := with_status code)
          discovery action fields s
        = AutonomousDebugAgent.execute_command discovery action fields s)
  /\ (forall commands s,
        AutonomousDebugAgent.batch_execute (host := with_status code) discovery commands s
        = AutonomousDebugAgent.batch_execute discovery commands s)
  /\ (forall s, AutonomousDebugAgent.get_errors (host := with_status code) discovery s
               = AutonomousDebugAgent.get_errors discovery s)
  /\ (forall s, AutonomousDebugAgent.get_logs (host := with_status code) discovery s
               = AutonomousDebugAgent.get_logs discovery s)
  /\ (forall w r,
        answer w r
        = match bridge w r with
          | Some resp =>
              match json_loads (text resp) with
              | Some body => Return body
              | None => Raise JSONDecodeError
              end
          | None => Raise ConnectionError
          end)
  /\ (forall w, BasicAgent.get_state discovery w = sends w (get_from discovery "/state"))
  /\ (forall action fields w,
        BasicAgent.execute_command discovery action fields w
        = if dict_has "action" fields then (Raise TypeError, w)
          else sends w (command action fields))
  /\ (forall commands flag w,
        BasicAgent.batch_execute discovery commands flag w
        = sends w (batch commands (match flag with Some stop => stop | None => true end)))
  /\ (forall w, BasicAgent.get_errors discovery w = sends w (get_from discovery "/errors"))
  /\ (forall w, BasicAgent.get_metrics discovery w = sends w (get_from discovery "/metrics"))
  /\ (forall action fields w,
        WebSocketAgent.execute_command discovery action fields w
        = if dict_has "action" fields then (Raise TypeError, w)
          else sends w (command action fields))
  /\ (forall commands w,
        WebSocketAgent.batch_execute discovery commands w = sends w (batch commands true))
  /\ (forall action fields s,
        AutonomousDebugAgent.execute_command discovery action fields s
        = if dict_has "action" fields then (Raise TypeError, s)
          else (answer (AutonomousDebugAgent.world s) (command action fields),
                sent_by s (command action fields)))
  /\ (forall commands s,
        AutonomousDebugAgent.batch_execute discovery commands s
        = (answer (AutonomousDebugAgent.world s) (batch commands false),
           sent_by s (batch commands false)))
  /\ (forall s,
        AutonomousDebugAgent.get_errors discovery s
        = (answer (AutonomousDebugAgent.world s) (get_from discovery "/errors"),
           sent_by s (get_from discovery "/errors")))
  /\ (forall s,
        AutonomousDebugAgent.get_logs discovery s
        = (answer (AutonomousDebugAgent.world s) (get_from discovery "/logs"),
           sent_by s (get_from discovery "/logs"))).
Proof.
  cbv zeta.
  repeat match goal with |- _ /\ _ => split end; intros;
    try apply autonomous_get_output_run;
    rewrite ?basic_get_state_run, ?basic_execute_command_run, ?basic_batch_execute_run,
      ?basic_get_errors_run, ?basic_get_metrics_run, ?websocket_execute_command_run,
      ?websocket_batch_execute_run, ?autonomous_execute_command_run,
      ?autonomous_batch_execute_run, ?autonomous_get_errors_run, ?autonomous_get_logs_run;
    cbv zeta; rewrite ?answer_with_status; reflexivity.
Qed.
End Status.

(** ** What every run leaves behind *)

Section Preserves.
Context {S : Type} (R : S -> S -> Prop) {R_preorder : PreOrder R}.

Lemma preserves_ret {A} (a : A) : preserves R (ret a).
Proof. intro s. reflexivity. Qed.

Lemma preserves_raise {A} (e : exn) : preserves R (@raise S A e).
Proof. intro s. reflexivity. Qed.

Lemma preserves_try {A} (r : Result A) : preserves R (try r).
Proof. intro s. reflexivity. Qed.

Lemma preserves_bind {A B} (m : M S A) (k : A -> M S B) :
  preserves R m -> (forall a, preserves R (k a)) -> preserves R (bind m k).
Proof.
  intros Hm Hk s. unfold bind.
  specialize (Hm s). destruct (m s) as [[a|e] s']; cbn in *.
  - transitivity s'; [exact Hm | apply Hk].
  - exact Hm.
Qed.

Lemma preserves_for_each {A} (xs : list A) (body : A -> M S bool) :
  (forall x, preserves R (body x)) -> preserves R (for_each xs body).
Proof.
  intros Hbody. induction xs as [|x xs IH]; cbn.
  - apply preserves_ret.
  - apply preserves_bind; [apply Hbody|].
    intros [|]; [apply preserves_ret | exact IH].
Qed.
End Preserves.

(** One step through the structure of a computation; [leaf] closes what is
    left of it. *)
Ltac preserves_step leaf :=
  lazymatch goal with
  | |- preserves _ (bind _ _) => apply preserves_bind; try exact _; [|intro]
  | |- preserves _ (ret _) => apply preserves_ret; exact _
  | |- preserves _ (raise _) => apply preserves_raise; exact _
  | |- preserves _ (try _) => apply preserves_try; exact _
  | |- preserves _ (for_each _ _) => apply preserves_for_each; try exact _; intro
  | |- preserves _ (resp_json _) => unfold resp_json
  | |- preserves _ (if ?b then _ else _) => destruct b
  | |- preserves _ (match ?x with _ => _ end) => destruct x
  | |- preserves _ _ => leaf
  end.

Lemma bind_ret {S A B} (a : A) (k : A -> M S B) (s : S) : bind (ret a) k s = k a s.
Proof. reflexivity. Qed.

Lemma bind_raise {S A B} (e : exn) (k : A -> M S B) (s : S) :
  bind (raise e) k s = (Raise e, s).
Proof. reflexivity. Qed.

Lemma bind_try {S A B} (r : Result A) (k : A -> M S B) (s : S) :
  bind (try r) k s = match r with Return a => k a s | Raise e => (Raise e, s) end.
Proof. unfold bind, try. destruct r; reflexivity. Qed.

Section Extends.
Context {FM : FloatModel} {host : Host} (P : Event -> Prop).

#[local] Instance extends_preorder : PreOrder (extends P).
Proof.
  split.
  - intro w. exists []. split; [symmetry; apply app_nil_r | constructor].
  - intros w1 w2 w3 (new1 & -> & H1) (new2 & -> & H2).
    exists (new1 ++ new2)%list. split; [symmetry; apply app_assoc|].
    apply Forall_app. split; assumption.
Qed.

#[local] Instance agent_extends_preorder : PreOrder (agent_extends P).
Proof.
  split.
  - intro s. unfold agent_extends. reflexivity.
  - intros s1 s2 s3 H1 H2. unfold agent_extends in *. etransitivity; eassumption.
Qed.

Lemma extends_emit (e : Event) : P e -> preserves (extends P) (emit e).
Proof. intros He w. exists [e]. split; [reflexivity | repeat constructor; exact He]. Qed.

Lemma extends_send (r : Request) : P (EvRequest r) -> preserves (extends P) (send r).
Proof.
  intros Hr w. exists [EvRequest r]. unfold send.
  destruct (bridge w r); (split; [reflexivity | repeat constructor; exact Hr]).
Qed.

Lemma extends_now : preserves (extends P) now.
Proof. intro w. reflexivity. Qed.

Lemma extends_io {A} (m : M World A) :
  preserves (extends P) m -> preserves (agent_extends P) (AutonomousDebugAgent.io m).
Proof.
  intros Hm s. unfold AutonomousDebugAgent.io, agent_extends.
  specialize (Hm (AutonomousDebugAgent.world s)).
  destruct (m (AutonomousDebugAgent.world s)) as [r w]. exact Hm.
Qed.

Lemma extends_update (f : AutonomousDebugAgent.Agent -> AutonomousDebugAgent.Agent) :
  preserves (agent_extends P) (AutonomousDebugAgent.update f).
Proof. intro s. unfold agent_extends; cbn. reflexivity. Qed.
End Extends.

(** ** The API key *)

Section ApiKey.
Context {FM : FloatModel} {host : Host} (discovery : Discovery).

#[local] Existing Instance extends_preorder.
#[local] Existing Instance agent_extends_preorder.

Lemma key_header_carries_key : carries_key discovery (key_header discovery).
Proof. unfold carries_key, key_header; cbn. rewrite String.eqb_refl. reflexivity. Qed.

Lemma keyed_print line : preserves (extends (key_on_http discovery)) (print line).
Proof. apply extends_emit. exact I. Qed.

Lemma keyed_sleep ms : preserves (extends (key_on_http discovery)) (sleep ms).
Proof. apply extends_emit. exact I. Qed.

Lemma keyed_get u : preserves (extends (key_on_http discovery)) (requests_get u (key_header discovery)).
Proof. apply extends_send. exact key_header_carries_key. Qed.

Lemma keyed_post u body :
  preserves (extends (key_on_http discovery)) (requests_post u body (key_header discovery)).
Proof. apply extends_send. exact key_header_carries_key. Qed.

Lemma keyed_run_forever u :
  preserves (extends (key_on_http discovery)) (run_forever (new_WebSocketApp u None)).
Proof. apply extends_emit. reflexivity. Qed.

Lemma keyed_Thread_start u :
  preserves (extends (key_on_http discovery))
    (Thread_start_run_forever (new_WebSocketApp u None)).
Proof. apply extends_emit. reflexivity. Qed.

Lemma keyed_ws_close app : preserves (extends (key_on_http discovery)) (ws_close app).
Proof. apply extends_emit. exact I. Qed.

Ltac keyed_base :=
  first [ apply keyed_print | apply keyed_sleep | apply keyed_get | apply keyed_post
        | apply keyed_run_forever | apply keyed_Thread_start | apply keyed_ws_close
        | apply extends_now ].

Ltac keyed_leaf :=
  first [ apply extends_update | apply extends_io; keyed_base | keyed_base ].

Ltac keyed_all := repeat preserves_step keyed_leaf.

Lemma keyed_basic_main : preserves (extends (key_on_http discovery)) (BasicAgent.main discovery).
Proof.
  unfold BasicAgent.main, BasicAgent.polling_loop, BasicAgent.get_state,
    BasicAgent.execute_command, BasicAgent.batch_execute, BasicAgent.get_errors,
    BasicAgent.get_metrics.
  keyed_all; unfold BasicAgent.show_error, BasicAgent.poll, BasicAgent.get_state; keyed_all.
Qed.

Lemma keyed_websocket_main interrupted :
  preserves (extends (key_on_http discovery)) (WebSocketAgent.main discovery interrupted).
Proof.
  unfold WebSocketAgent.main, WebSocketAgent.batch_execute, WebSocketAgent.execute_command.
  keyed_all.
Qed.

Lemma keyed_websocket_on_message message :
  preserves (extends (key_on_http discovery)) (WebSocketAgent.on_message message).
Proof.
  unfold WebSocketAgent.on_message. keyed_all.
  unfold WebSocketAgent.show_frame. keyed_all.
Qed.

Lemma keyed_analyze_error error_item :
  preserves (agent_extends (key_on_http discovery))
    (AutonomousDebugAgent.analyze_error error_item).
Proof. unfold AutonomousDebugAgent.analyze_error. keyed_all. Qed.

Lemma keyed_handle_exception snapshot :
  preserves (agent_extends (key_on_http discovery))
    (AutonomousDebugAgent.handle_exception snapshot).
Proof. unfold AutonomousDebugAgent.handle_exception. keyed_all. Qed.

Lemma keyed_analyze_session :
  preserves (agent_extends (key_on_http discovery))
    (AutonomousDebugAgent.analyze_session discovery).
Proof.
  unfold AutonomousDebugAgent.analyze_session, AutonomousDebugAgent.get_errors,
    AutonomousDebugAgent.get_output, AutonomousDebugAgent.get_logs.
  keyed_all.
  unfold AutonomousDebugAgent.report_error. keyed_all.
  - apply keyed_analyze_error.
  - unfold AutonomousDebugAgent.show_suggestion. keyed_all.
Qed.

Lemma keyed_on_message message :
  preserves (agent_extends (key_on_http discovery))
    (AutonomousDebugAgent.on_message discovery message).
Proof.
  unfold AutonomousDebugAgent.on_message. keyed_all;
    first [apply keyed_handle_exception | apply keyed_analyze_session].
Qed.

Lemma keyed_deliver messages s :
  agent_extends (key_on_http discovery) s (AutonomousDebugAgent.deliver discovery messages s).
Proof.
  revert s. induction messages as [|message rest IH]; intro s; cbn.
  - reflexivity.
  - transitivity (snd (AutonomousDebugAgent.on_message discovery message s)).
    + apply keyed_on_message.
    + apply IH.
Qed.

Lemma keyed_run_debugging_cycle :
  preserves (agent_extends (key_on_http discovery))
    (AutonomousDebugAgent.run_debugging_cycle discovery).
Proof.
  unfold AutonomousDebugAgent.run_debugging_cycle, AutonomousDebugAgent.execute_command,
    AutonomousDebugAgent.get_errors, AutonomousDebugAgent.batch_execute.
  keyed_all.
  unfold AutonomousDebugAgent.analyze_only. keyed_all. apply keyed_analyze_error.
Qed.

Lemma keyed_monitor ticks :
  preserves (agent_extends (key_on_http discovery)) (AutonomousDebugAgent.monitor ticks).
Proof. induction ticks as [|ticks IH]; cbn; keyed_all. exact IH. Qed.

Lemma keyed_start ticks :
  preserves (agent_extends (key_on_http discovery))
    (AutonomousDebugAgent.start discovery ticks).
Proof.
  unfold AutonomousDebugAgent.start. keyed_all;
    first [apply keyed_run_debugging_cycle | apply keyed_monitor].
Qed.

(** C7, as the scripts have it: every HTTP request of a script carries the
    API key of the discovery file in the header the file names; the
    WebSocket handshake is sent without it.  This covers the whole of each
    script: the three entry points and the handling of every incoming
    message. *)
Theorem http_requests_carry_key :
  (forall w, extends (key_on_http discovery) w (snd (BasicAgent.main discovery w)))
  /\ (forall interrupted w,
        extends (key_on_http discovery) w
          (snd (WebSocketAgent.main discovery interrupted w)))
  /\ (forall message w,
        extends (key_on_http discovery) w (snd (WebSocketAgent.on_message message w)))
  /\ (forall ticks s,
        agent_extends (key_on_http discovery) s
          (snd (AutonomousDebugAgent.start discovery ticks s)))
  /\ (forall messages s,
        agent_extends (key_on_http discovery) s
          (AutonomousDebugAgent.deliver discovery messages s)).
Proof.
  repeat split; intros.
  - apply keyed_basic_main.
  - apply keyed_websocket_main.
  - apply keyed_websocket_on_message.
  - apply keyed_start.
  - apply keyed_deliver.
Qed.
End ApiKey.

Section ApiKeyMock.
#[local] Existing Instance Mock.exact_floats.

(** C7 fails as stated: the handshake [websocket_agent.py] sends to [/ws]
    carries no header at all, so not the API key. *)
Lemma websocket_handshake_without_key :
  ~ Forall (key_everywhere Mock.discovery)
      (snd (WebSocketAgent.main (host := Mock.counts_host) Mock.discovery false [])).
Proof.
  intros Hall. rewrite Forall_forall in Hall.
  specialize (Hall (EvWsConnect (WebSocketAgent.WS_URL Mock.discovery) [])).
  assert (Hin : In (EvWsConnect (WebSocketAgent.WS_URL Mock.discovery) [])
                  (snd (WebSocketAgent.main (host := Mock.counts_host)
                          Mock.discovery false []))).
  { vm_compute. do 13 right. left. reflexivity. }
  specialize (Hall Hin). discriminate Hall.
Qed.
End ApiKeyMock.

(** ** The polling loop *)

Section Polling.
Context {FM : FloatModel} {host : Host} (discovery : Discovery).

(** One round, by what was fetched. *)
Lemma poll_cases (i : nat) (w : World) :
  let r := get_from discovery "/state" in
  match fetched_mode w r with
  | None => exists e, BasicAgent.poll discovery i w = (Raise e, (w ++ [EvRequest r])%list)
  | Some mode =>
      if py_eq_str mode "Break" then
        exists res evs,
          BasicAgent.poll discovery i w = (res, (w ++ EvRequest r :: evs)%list)
          /\ res <> Return false
          /\ Forall (fun e => exists line, e = EvPrint line) evs
      else
        exists line,
          BasicAgent.poll discovery i w
          = (Return false, (w ++ [EvRequest r; EvPrint line; EvSleep 500])%list)
  end.
Proof.
  cbv zeta. unfold BasicAgent.poll, fetched_mode.
  unfold bind, try, print, sleep, emit, ret. rewrite !basic_get_state_run.
  destruct (answer w (get_from discovery "/state")) as [state|e]; [|eauto].
  destruct (py_getitem state "snapshot") as [snapshot|e]; [|eauto].
  destruct (py_getitem snapshot "mode") as [mode|e]; [|eauto].
  destruct (py_eq_str mode "Break").
  - destruct (py_getitem snapshot "locals") as [locals_dict|e].
    + destruct (py_keys locals_dict) as [keys|e];
        do 2 eexists; (split; [rewrite <- !app_assoc; reflexivity|]);
        (split; [discriminate | repeat constructor; eauto]).
    + do 2 eexists; (split; [rewrite <- !app_assoc; reflexivity|]);
        (split; [discriminate | repeat constructor; eauto]).
  - eexists. rewrite <- !app_assoc. reflexivity.
Qed.

Lemma for_each_cons {S A} (x : A) (xs : list A) (body : A -> M S bool) (s : S) :
  for_each (x :: xs) body s
  = match body x s with
    | (Return true, s') => (Return tt, s')
    | (Return false, s') => for_each xs body s'
    | (Raise e, s') => (Raise e, s')
    end.
Proof. cbn. unfold bind. destruct (body x s) as [[[|]|e] s']; reflexivity. Qed.

Lemma prints_only (evs : World) :
  Forall (fun e => exists line, e = EvPrint line) evs ->
  polls evs = 0%nat /\ sleeps evs = 0%nat /\ Forall (poll_event discovery) evs.
Proof.
  induction 1 as [|e evs [line ->] _ (Hp & Hs & Hall)]; cbn.
  - repeat split. constructor.
  - repeat split; [exact Hp | exact Hs | constructor; [exact I | exact Hall]].
Qed.

(** [n] rounds from any index, on any world. *)
Lemma poll_rounds (n : nat) :
  forall (a : nat) (w : World),
  exists new,
    snd (for_each (seq a n) (BasicAgent.poll discovery) w) = (w ++ new)%list
    /\ Forall (poll_event discovery) new
    /\ (polls new <= n)%nat
    /\ (sleeps new <= polls new)%nat
    /\ after_break w new
    /\ (never_break w new ->
          polls new = n /\ sleeps new = n
          /\ fst (for_each (seq a n) (BasicAgent.poll discovery) w) = Return tt).
Proof.
  induction n as [|n IH]; intros a w.
  - exists []. cbn. rewrite app_nil_r.
    split; [reflexivity|]. split; [constructor|].
    split; [constructor|]. split; [constructor|]. split.
    + intros pre r post mode Heq. destruct pre; discriminate.
    + intros _. repeat split.
  - cbn [seq]. rewrite for_each_cons.
    pose proof (poll_cases a w) as Hcase. cbv zeta in Hcase.
    destruct (fetched_mode w (get_from discovery "/state")) as [mode|] eqn:Hmode.
    + destruct (py_eq_str mode "Break") eqn:Hbreak.
      * destruct Hcase as (res & evs & Hrun & Hres & Hevs). rewrite Hrun.
        destruct (prints_only evs Hevs) as (Hp & Hs & Hall).
        exists (EvRequest (get_from discovery "/state") :: evs).
        split; [destruct res as [[|]|e]; [reflexivity | contradiction | reflexivity]|].
        split; [constructor; [reflexivity | exact Hall]|].
        unfold polls, sleeps in *; cbn [filter is_request is_sleep List.length].
        split; [lia|]. split; [lia|]. split.
        -- intros pre r post mode' Heq Hf Hb. destruct pre as [|e pre]; cbn in Heq.
           ++ injection Heq as _ <-. split; assumption.
           ++ injection Heq as _ ->. apply Forall_app in Hevs as [_ Hevs].
              inversion Hevs as [|? ? [line Hline] _]. discriminate Hline.
        -- intros Hnever. destruct (Hnever [] _ evs eq_refl) as (mode' & Hf & Hb).
           rewrite app_nil_r, Hmode in Hf. injection Hf as <-. congruence.
      * destruct Hcase as (line & Hrun). rewrite Hrun.
        set (w' := (w ++ [EvRequest (get_from discovery "/state"); EvPrint line;
                          EvSleep 500])%list).
        destruct (IH (S a) w') as (new & Hnew & Hall & Hle & Hsl & Hab & Hnb).
        exists (EvRequest (get_from discovery "/state") :: EvPrint line
                :: EvSleep 500 :: new).
        split; [rewrite Hnew; unfold w'; rewrite <- app_assoc; reflexivity|].
        split; [repeat constructor; exact Hall|].
        unfold polls, sleeps in *; cbn [filter is_request is_sleep List.length].
        split; [lia|]. split; [lia|]. split.
        -- intros pre r post mode' Heq Hf Hb. destruct pre as [|e1 pre]; cbn in Heq.
           ++ injection Heq as <- _. rewrite app_nil_r, Hmode in Hf.
              injection Hf as <-. congruence.
           ++ injection Heq as <- Heq.
              destruct pre as [|e2 pre]; cbn in Heq; [discriminate|].
              injection Heq as <- Heq.
              destruct pre as [|e3 pre]; cbn in Heq; [discriminate|].
              injection Heq as <- Heq. subst new.
              apply (Hab pre r post mode' eq_refl); [|exact Hb].
              unfold w'. rewrite <- app_assoc. exact Hf.
        -- intros Hnever.
           assert (Hnever' : never_break w' new).
           { intros pre r post Heq.
             destruct (Hnever (EvRequest (get_from discovery "/state") :: EvPrint line
                               :: EvSleep 500 :: pre) r post) as (mode' & Hf & Hb).
             - cbn. rewrite Heq. reflexivity.
             - exists mode'. split; [|exact Hb].
               unfold w'. rewrite <- app_assoc. exact Hf. }
           destruct (Hnb Hnever') as (Hp & Hs & Hret).
           repeat split; [lia | lia | exact Hret].
    + destruct Hcase as (e & Hrun). rewrite Hrun.
      exists [EvRequest (get_from discovery "/state")].
      split; [reflexivity|].
      split; [repeat constructor|].
      unfold polls, sleeps; cbn [filter is_request is_sleep List.length].
      split; [lia|]. split; [lia|]. split.
      * intros pre r post mode' Heq Hf Hb. destruct pre as [|e1 pre]; cbn in Heq.
        -- injection Heq as <- _. rewrite app_nil_r, Hmode in Hf. discriminate.
        -- injection Heq as _ Heq. destruct pre; discriminate.
      * intros Hnever. destruct (Hnever [] _ [] eq_refl) as (mode' & Hf & _).
        rewrite app_nil_r, Hmode in Hf. discriminate.
Qed.

(** C3: whatever the bridge answers, the polling loop of [basic_agent.py]
    ends after at most 10 polls of [/state]; once a poll has fetched the
    mode Break it neither sleeps nor polls again; and when every poll
    fetches a mode other than Break, it ends after exactly 10 polls and 10
    sleeps of 500ms. *)
Theorem polling_loop_terminates (w : World) :
  exists new,
    snd (BasicAgent.polling_loop discovery w) = (w ++ new)%list
    /\ Forall (poll_event discovery) new
    /\ (polls new <= 10)%nat
    /\ (sleeps new <= polls new)%nat
    /\ after_break w new
    /\ (never_break w new ->
          polls new = 10%nat /\ sleeps new = 10%nat
          /\ fst (BasicAgent.polling_loop discovery w) = Return tt).
Proof. exact (poll_rounds 10 0 w). Qed.
End Polling.

(** ** The error-pattern matcher *)

Section Strings.

Lemma prefix_lower (a : string) :
  forall b, String.prefix a b = true -> String.prefix (lower a) (lower b) = true.
Proof.
  induction a as [|c a IH]; intros [|c' b]; cbn; try reflexivity; try discriminate.
  destruct (ascii_dec c c') as [->|]; [|discriminate].
  intros Hp. destruct (ascii_dec (lower_ascii c') (lower_ascii c')); [|congruence].
  apply IH. exact Hp.
Qed.

Lemma contains_lower (sub s : string) :
  contains sub s = true -> contains (lower sub) (lower s) = true.
Proof.
  induction s as [|c s IH]; cbn [contains lower].
  - destruct (String.prefix sub "") eqn:Hp; [|discriminate].
    intros _. apply prefix_lower in Hp. cbn [lower] in Hp. rewrite Hp. reflexivity.
  - destruct (String.prefix sub (String c s)) eqn:Hp.
    + intros _. apply prefix_lower in Hp. cbn [lower] in Hp. rewrite Hp. reflexivity.
    + intros Hc. rewrite (IH Hc).
      destruct (String.prefix (lower sub) (String (lower_ascii c) (lower s))); reflexivity.
Qed.
End Strings.

Section Matcher.
Context {FM : FloatModel} {host : Host} (discovery : Discovery).

Lemma py_get_dict (d : list (string * JSON)) (k : string) (default : JSON) :
  py_get (JDict d) k default = Return (field k default d).
Proof. unfold py_get, field. destruct (dict_get k d); reflexivity. Qed.

(** [analyze_error] on a dict: the three lines it prints, and the
    suggestions of the category its description falls under. *)
Lemma analyze_error_run (d : list (string * JSON)) (s : AutonomousDebugAgent.AgentWorld) :
  AutonomousDebugAgent.analyze_error (JDict d) s
  = (match field "description" (JStr "") d with
     | JStr description =>
         Return (suggestions (classify description)
                   (field "file" (JStr "") d) (field "line" (JInt 0) d))
     | _ => Raise AttributeError
     end,
     {| AutonomousDebugAgent.self := AutonomousDebugAgent.self s;
        AutonomousDebugAgent.world :=
          (AutonomousDebugAgent.world s ++ analysis_header d)%list |}).
Proof.
  unfold AutonomousDebugAgent.analyze_error.
  unfold bind, try. rewrite !py_get_dict.
  unfold AutonomousDebugAgent.io, print, emit; cbn [AutonomousDebugAgent.world
    AutonomousDebugAgent.self].
  unfold analysis_header. rewrite <- !app_assoc. cbn [app].
  destruct (field "description" (JStr "") d) as [| | | |description| |];
    cbn [py_lower]; try reflexivity.
  unfold classify, mentions, suggestions, ret, append.
  destruct (contains "not defined" (lower description)
            || contains "does not exist" (lower description)); [reflexivity|].
  destruct (contains "null reference" (lower description)); [reflexivity|].
  destruct (contains "type mismatch" (lower description)
            || contains "cannot convert" (lower description)); reflexivity.
Qed.

(** C9: [analyze_error] returns no suggestion or exactly two; on an error
    item it returns the two of the category [classify] gives, which looks
    at the description in lower case only and takes the first category that
    applies: "not defined" or "does not exist", then "null reference", then
    "type mismatch" or "cannot convert". *)
Theorem analyze_error_suggestions :
  (forall error_item s l,
     fst (AutonomousDebugAgent.analyze_error error_item s) = Return l ->
     l = [] \/ List.length l = 2%nat)
  /\ (forall d description s,
        field "description" (JStr "") d = JStr description ->
        fst (AutonomousDebugAgent.analyze_error (JDict d) s)
        = Return (suggestions (classify description)
                    (field "file" (JStr "") d) (field "line" (JInt 0) d)))
  /\ (forall description1 description2,
        lower description1 = lower description2 ->
        classify description1 = classify description2)
  /\ (forall description,
        mentions "not defined" description || mentions "does not exist" description = true ->
        classify description = Some UndefinedName)
  /\ (forall description,
        mentions "not defined" description || mentions "does not exist" description = false ->
        mentions "null reference" description = true ->
        classify description = Some NullReference)
  /\ (forall description,
        mentions "not defined" description || mentions "does not exist" description = false ->
        mentions "null reference" description = false ->
        mentions "type mismatch" description || mentions "cannot convert" description = true ->
        classify description = Some TypeConversion)
  /\ (forall description,
        mentions "not defined" description || mentions "does not exist" description = false ->
        mentions "null reference" description = false ->
        mentions "type mismatch" description || mentions "cannot convert" description = false ->
        classify description = None).
Proof.
  split; [|split; [|split]].
  - intros error_item s l.
    destruct error_item as [| | | | | |d]; try discriminate.
    rewrite analyze_error_run; cbn [fst].
    destruct (field "description" (JStr "") d) as [| | | |description| |];
      try discriminate.
    intros Hl. injection Hl as <-.
    destruct (classify description) as [[| |]|]; cbn; auto.
  - intros d description s Hd. rewrite analyze_error_run, Hd. reflexivity.
  - intros description1 description2 Heq. unfold classify, mentions.
    rewrite Heq. reflexivity.
  - unfold classify. repeat split; intros description.
    + intros ->. reflexivity.
    + intros -> ->. reflexivity.
    + intros -> -> ->. reflexivity.
    + intros -> -> ->. reflexivity.
Qed.

(** C5: an error item whose description contains "not defined", such as
    "X is not defined", is classified as a missing import or an undefined
    variable: that is the first suggestion. *)
Theorem not_defined_is_missing_import
    (d : list (string * JSON)) (description : string)
    (s : AutonomousDebugAgent.AgentWorld) :
  dict_get "description" d = Some (JStr description) ->
  contains "not defined" description = true ->
  fst (AutonomousDebugAgent.analyze_error (JDict d) s)
  = Return ["Missing import or undefined variable";
            "Action: Check imports at " ++ py_str (field "file" (JStr "") d)].
Proof.
  intros Hd Hcontains.
  rewrite analyze_error_run; cbn [fst].
  unfold field at 1. rewrite Hd.
  unfold classify, mentions.
  apply contains_lower in Hcontains.
  change (contains "not defined" (lower description) = true) in Hcontains.
  rewrite Hcontains. reflexivity.
Qed.

(** C4: on the [stateChange] message with mode Break, the exception
    NullReferenceException and no locals, [on_message] mirrors the snapshot,
    prints the null-check suggestion and returns. *)
Theorem null_reference_is_handled
    (message : string) (s : AutonomousDebugAgent.AgentWorld) :
  json_loads message = Some break_on_null_reference ->
  AutonomousDebugAgent.on_message discovery message s
  = (Return tt,
     {| AutonomousDebugAgent.self :=
          AutonomousDebugAgent.set_current_state null_reference_snapshot
            (AutonomousDebugAgent.self s);
        AutonomousDebugAgent.world :=
          (AutonomousDebugAgent.world s ++ null_reference_report)%list |}).
Proof.
  intros Hloads. unfold AutonomousDebugAgent.on_message. rewrite Hloads.
  unfold null_reference_report. cbn.
  rewrite <- !app_assoc. reflexivity.
Qed.
End Matcher.

Section MatcherMock.
#[local] Existing Instance Mock.exact_floats.

(** The mock [/errors] item "X is not defined". *)
Lemma X_is_not_defined :
  fst (AutonomousDebugAgent.analyze_error (host := Mock.ok_host)
         (JDict Mock.undefined_X) Mock.fresh_agent)
  = Return ["Missing import or undefined variable"; "Action: Check imports at a.cs"].
Proof.
  exact (not_defined_is_missing_import (host := Mock.ok_host)
           Mock.undefined_X "X is not defined" Mock.fresh_agent eq_refl eq_refl).
Defined.

(** The message of C4, decoded by the mock. *)
Lemma null_reference_on_mock :
  AutonomousDebugAgent.on_message (host := Mock.break_host)
    Mock.discovery Mock.break_text Mock.fresh_agent
  = (Return tt,
     {| AutonomousDebugAgent.self :=
          AutonomousDebugAgent.set_current_state null_reference_snapshot
            AutonomousDebugAgent.init;
        AutonomousDebugAgent.world := null_reference_report (host := Mock.break_host) |}).
Proof.
  exact (null_reference_is_handled (host := Mock.break_host) Mock.discovery
           Mock.break_text Mock.fresh_agent eq_refl).
Defined.
End MatcherMock.

(** ** The mirror of the last snapshot *)

Section Mirror.
Context {FM : FloatModel} {host : Host} (discovery : Discovery).

#[local] Instance same_agent_preorder : PreOrder same_agent.
Proof.
  split.
  - intro s. reflexivity.
  - intros s1 s2 s3 H1 H2. unfold same_agent in *. congruence.
Qed.

Lemma frame_io {A} (m : M World A) : preserves same_agent (AutonomousDebugAgent.io m).
Proof.
  intro s. unfold AutonomousDebugAgent.io, same_agent.
  destruct (m (AutonomousDebugAgent.world s)); reflexivity.
Qed.

Ltac frame_all := repeat preserves_step ltac:(apply frame_io).

Lemma frame_analyze_error error_item :
  preserves same_agent (AutonomousDebugAgent.analyze_error error_item).
Proof. unfold AutonomousDebugAgent.analyze_error. frame_all. Qed.

Lemma frame_handle_exception snapshot :
  preserves same_agent (AutonomousDebugAgent.handle_exception snapshot).
Proof. unfold AutonomousDebugAgent.handle_exception. frame_all. Qed.

Lemma frame_analyze_session :
  preserves same_agent (AutonomousDebugAgent.analyze_session discovery).
Proof.
  unfold AutonomousDebugAgent.analyze_session, AutonomousDebugAgent.get_errors,
    AutonomousDebugAgent.get_output, AutonomousDebugAgent.get_logs.
  frame_all.
  unfold AutonomousDebugAgent.report_error. frame_all.
  - apply frame_analyze_error.
  - unfold AutonomousDebugAgent.show_suggestion. frame_all.
Qed.

Lemma bind_update {B} (f : AutonomousDebugAgent.Agent -> AutonomousDebugAgent.Agent)
    (k : unit -> M AutonomousDebugAgent.AgentWorld B) (s : AutonomousDebugAgent.AgentWorld) :
  bind (AutonomousDebugAgent.update f) k s
  = k tt {| AutonomousDebugAgent.self := f (AutonomousDebugAgent.self s);
            AutonomousDebugAgent.world := AutonomousDebugAgent.world s |}.
Proof. reflexivity. Qed.

Lemma py_eq_str_other (x : JSON) (a b : string) :
  py_eq_str x a = true -> String.eqb a b = false -> py_eq_str x b = false.
Proof.
  destruct x; cbn; try discriminate.
  intros Ha Hab. apply String.eqb_eq in Ha. subst. exact Hab.
Qed.

(** What one message does to the agent. *)
Lemma on_message_agent (message : string) (s : AutonomousDebugAgent.AgentWorld) :
  AutonomousDebugAgent.self (snd (AutonomousDebugAgent.on_message discovery message s))
  = match snapshot_of message with
    | Some snapshot =>
        AutonomousDebugAgent.set_current_state snapshot (AutonomousDebugAgent.self s)
    | None => AutonomousDebugAgent.self s
    end.
Proof.
  unfold AutonomousDebugAgent.on_message, snapshot_of.
  destruct (json_loads message) as [data|]; [rewrite bind_ret | reflexivity].
  rewrite bind_try.
  destruct data as [| | | | | |d]; try reflexivity.
  cbn [py_get]. destruct (dict_get "type" d) as [event_type|]; [|reflexivity].
  destruct (py_eq_str event_type "connected") eqn:Hconnected.
  - rewrite (py_eq_str_other event_type "connected" "stateChange" Hconnected eq_refl).
    refine ((_ : preserves same_agent _) s). frame_all.
  - destruct (py_eq_str event_type "stateChange"); [|reflexivity].
    rewrite bind_try. cbn [py_getitem].
    destruct (dict_get "snapshot" d) as [snapshot|]; [|reflexivity].
    rewrite bind_update.
    refine ((_ : preserves same_agent _) _).
    frame_all; first [apply frame_handle_exception | apply frame_analyze_session].
Qed.

Lemma deliver_agent (messages : list string) :
  forall s,
    let a := AutonomousDebugAgent.self s in
    let a' := AutonomousDebugAgent.self (AutonomousDebugAgent.deliver discovery messages s) in
    AutonomousDebugAgent.current_state a'
    = last_snapshot messages (AutonomousDebugAgent.current_state a)
    /\ AutonomousDebugAgent.error_history a' = AutonomousDebugAgent.error_history a
    /\ AutonomousDebugAgent.ws a' = AutonomousDebugAgent.ws a
    /\ AutonomousDebugAgent.running a' = AutonomousDebugAgent.running a.
Proof.
  induction messages as [|message rest IH]; intro s; cbv zeta.
  - repeat split.
  - cbn [AutonomousDebugAgent.deliver last_snapshot fold_left].
    specialize (IH (snd (AutonomousDebugAgent.on_message discovery message s))).
    cbv zeta in IH. destruct IH as (Hstate & Hhistory & Hws & Hrunning).
    rewrite Hstate, Hhistory, Hws, Hrunning, on_message_agent.
    unfold last_snapshot.
    destruct (snapshot_of message); repeat split.
Qed.

(** C8: after any sequence of messages the agent that [__init__] made
    holds, as [current_state], the snapshot of the most recent
    [stateChange] message, or the empty dict when there was none; its
    [error_history] is still empty and its other fields are untouched; a
    message that brings no snapshot (connected, pong, any other type) leaves
    every field as it was. *)
Theorem current_state_mirrors_last_snapshot :
  (forall messages w,
     let a' := AutonomousDebugAgent.self
                 (AutonomousDebugAgent.deliver discovery messages
                    {| AutonomousDebugAgent.self := AutonomousDebugAgent.init;
                       AutonomousDebugAgent.world := w |}) in
     AutonomousDebugAgent.current_state a' = last_snapshot messages (JDict [])
     /\ AutonomousDebugAgent.error_history a' = []
     /\ AutonomousDebugAgent.ws a' = None
     /\ AutonomousDebugAgent.running a' = false)
  /\ (forall messages s,
        let a := AutonomousDebugAgent.self s in
        let a' := AutonomousDebugAgent.self
                    (AutonomousDebugAgent.deliver discovery messages s) in
        AutonomousDebugAgent.current_state a'
        = last_snapshot messages (AutonomousDebugAgent.current_state a)
        /\ AutonomousDebugAgent.error_history a' = AutonomousDebugAgent.error_history a
        /\ AutonomousDebugAgent.ws a' = AutonomousDebugAgent.ws a
        /\ AutonomousDebugAgent.running a' = AutonomousDebugAgent.running a)
  /\ (forall message s,
        snapshot_of message = None ->
        AutonomousDebugAgent.self
          (snd (AutonomousDebugAgent.on_message discovery message s))
        = AutonomousDebugAgent.self s)
  /\ (forall message d event_type,
        json_loads message = Some (JDict d) ->
        dict_get "type" d = Some (JStr event_type) ->
        event_type <> "stateChange" ->
        snapshot_of message = None).
Proof.
  split; [|split; [|split]].
  - intros messages w. apply (deliver_agent messages).
  - intros messages s. apply deliver_agent.
  - intros message s Hnone. rewrite on_message_agent, Hnone. reflexivity.
  - intros message d event_type Hloads Htype Hother.
    unfold snapshot_of. rewrite Hloads, Htype. cbn [py_eq_str].
    apply String.eqb_neq in Hother. rewrite Hother. reflexivity.
Qed.
End Mirror.

(** ** The average request duration *)

Section Never.
Context {S : Type} (e : exn).

Lemma never_ret {A} (a : A) : never e (@ret S A a).
Proof. intro s. discriminate. Qed.

Lemma never_raise {A} (e' : exn) : e' <> e -> never e (@raise S A e').
Proof. intros Hne s. cbn. congruence. Qed.

Lemma never_try {A} (r : Result A) : r <> Raise e -> never e (@try S A r).
Proof. intros Hr s. exact Hr. Qed.

Lemma never_bind {A B} (m : M S A) (k : A -> M S B) :
  never e m -> (forall a, never e (k a)) -> never e (bind m k).
Proof.
  intros Hm Hk s. unfold bind. specialize (Hm s).
  destruct (m s) as [[a|e'] s']; cbn in *.
  - apply Hk.
  - intros Heq. apply Hm. injection Heq as ->. reflexivity.
Qed.

Lemma never_for_each {A} (xs : list A) (body : A -> M S bool) :
  (forall x, never e (body x)) -> never e (for_each xs body).
Proof.
  intros Hbody. induction xs as [|x xs IH]; cbn.
  - apply never_ret.
  - apply never_bind; [apply Hbody|].
    intros [|]; [apply never_ret | exact IH].
Qed.
End Never.

Section Average.
Context {FM : FloatModel} {host : Host} (discovery : Discovery).

Lemma never_io {A} (e : exn) (m : M World A) :
  never e m -> never e (AutonomousDebugAgent.io m).
Proof.
  intros Hm s. unfold AutonomousDebugAgent.io. specialize (Hm (AutonomousDebugAgent.world s)).
  destruct (m (AutonomousDebugAgent.world s)). exact Hm.
Qed.

Lemma never_emit (e : exn) (ev : Event) : never e (emit ev).
Proof. intro w. discriminate. Qed.

Lemma send_never_divides (r : Request) : never ZeroDivisionError (send r).
Proof. intro w. unfold send. destruct (bridge w r); discriminate. Qed.

Lemma sum_durations_never_divides (logs : list JSON) :
  forall total,
    AutonomousDebugAgent.sum_durations total logs <> Raise ZeroDivisionError.
Proof.
  induction logs as [|log logs IH]; intro total; cbn [AutonomousDebugAgent.sum_durations].
  - discriminate.
  - destruct (py_get log "durationMs" (JInt 0)) as [duration|e'] eqn:Hget.
    + destruct (py_add total duration) as [total'|e'] eqn:Hadd; [apply IH|].
      intros Heq. injection Heq as ->.
      unfold py_add, num_add in Hadd.
      destruct duration, total; try discriminate;
        repeat match type of Hadd with
               | context [match ?x with _ => _ end] => destruct x
               end; discriminate.
    + intros Heq. injection Heq as ->.
      unfold py_get in Hget. destruct log; try discriminate.
      destruct (dict_get "durationMs" d); discriminate.
Qed.

(** The guarded division of [analyze_session], with whatever is done with
    the average: [len(logs)] is not zero where the division is reached. *)
Lemma guarded_division (logs : JSON)
    (k : pyfloat -> M AutonomousDebugAgent.AgentWorld unit) :
  (forall avg_time, never ZeroDivisionError (k avg_time)) ->
  never ZeroDivisionError
    (if py_truth logs then
       items <- try (py_iter logs) ;;
       total <- try (AutonomousDebugAgent.sum_durations (NInt 0) items) ;;
       n <- try (py_len logs) ;;
       avg_time <- try (py_truediv total n) ;;
       k avg_time
     else ret tt).
Proof.
  intros Hk s. destruct (py_truth logs) eqn:Hlogs; [|discriminate].
  rewrite bind_try.
  destruct logs as [| | | |str|l|d]; cbn [py_iter]; try discriminate.
  - destruct str as [|c str]; [discriminate Hlogs|].
    rewrite bind_try. cbn. discriminate.
  - destruct l as [|log l]; [discriminate Hlogs|].
    rewrite bind_try.
    pose proof (sum_durations_never_divides (log :: l) (NInt 0)) as Hsum.
    destruct (AutonomousDebugAgent.sum_durations (NInt 0) (log :: l)) as [total|e'];
      [|intros Heq; apply Hsum; cbn in Heq; injection Heq as ->; reflexivity].
    rewrite bind_try. cbn [py_len]. rewrite bind_try. unfold py_truediv.
    destruct (Z.eqb_spec (Z.of_nat (List.length (log :: l))) 0) as [Hzero|_];
      [cbn [List.length] in Hzero; lia|].
    destruct total as [a|f].
    + destruct (int_truediv a _); [apply Hk | cbn; discriminate].
    + destruct (float_of_int _); [apply Hk | cbn; discriminate].
  - destruct d as [|[key v] d]; [discriminate Hlogs|].
    rewrite bind_try. cbn. discriminate.
Qed.

Ltac pure_safe :=
  unfold py_get, py_getitem, py_len, py_slice_to, py_iter, py_keys, py_lower, py_in;
  repeat match goal with
         | |- context [match ?x with _ => _ end] => destruct x
         end;
  discriminate.

Ltac never_leaf :=
  first [ apply never_io; first [apply never_emit | apply send_never_divides]
        | apply never_try; pure_safe ].

Ltac never_step :=
  lazymatch goal with
  | |- never _ (if py_truth _ then bind (try (py_iter _)) _ else _) =>
      apply guarded_division; intro
  | |- never _ (bind _ _) => apply never_bind; [|intro]
  | |- never _ (ret _) => apply never_ret
  | |- never _ (raise _) => apply never_raise; discriminate
  | |- never _ (for_each _ _) => apply never_for_each; intro
  | |- never _ (resp_json _) => unfold resp_json
  | |- never _ (if ?b then _ else _) => destruct b
  | |- never _ (match ?x with _ => _ end) => destruct x
  | |- never _ _ => never_leaf
  end.

Lemma analyze_error_never_divides error_item :
  never ZeroDivisionError (AutonomousDebugAgent.analyze_error error_item).
Proof. unfold AutonomousDebugAgent.analyze_error. repeat never_step. Qed.

Lemma analyze_session_never_divides :
  never ZeroDivisionError (AutonomousDebugAgent.analyze_session discovery).
Proof.
  unfold AutonomousDebugAgent.analyze_session, AutonomousDebugAgent.get_errors,
    AutonomousDebugAgent.get_output, AutonomousDebugAgent.get_logs.
  repeat never_step.
  unfold AutonomousDebugAgent.report_error, AutonomousDebugAgent.show_suggestion.
  repeat never_step. apply analyze_error_never_divides.
Qed.

Lemma sum_durations_recorded (logs : list JSON) :
  Forall log_entry logs ->
  forall total,
    AutonomousDebugAgent.sum_durations (NInt total) logs
    = Return (NInt (total + recorded_total logs)).
Proof.
  induction 1 as [|log logs (d & -> & Hd) _ IH]; intro total.
  - cbn. rewrite Z.add_0_r. reflexivity.
  - unfold recorded_total in *.
    cbn [AutonomousDebugAgent.sum_durations py_get flat_map duration_of].
    destruct Hd as [Hd|(z & Hd)]; rewrite Hd; cbn [py_add num_add app fold_right];
      rewrite IH; do 2 f_equal; lia.
Qed.

(** C10: [analyze_session] never ends in a division by zero: the average
    is computed only for logs that are true, and then [len(logs)] is at
    least 1; over log entries the sum is the total of the durations they
    record, so that an entry without [durationMs] adds nothing. *)
Theorem average_is_guarded :
  (forall s,
     fst (AutonomousDebugAgent.analyze_session discovery s) <> Raise ZeroDivisionError)
  /\ (forall logs,
        Forall log_entry logs ->
        AutonomousDebugAgent.sum_durations (NInt 0) logs
        = Return (NInt (recorded_total logs)))
  /\ (forall d logs,
        dict_get "durationMs" d = None ->
        recorded_total (JDict d :: logs) = recorded_total logs).
Proof.
  split; [|split].
  - exact analyze_session_never_divides.
  - intros logs Hlogs. apply (sum_durations_recorded logs Hlogs 0%Z).
  - intros d logs Hd. unfold recorded_total. cbn [flat_map duration_of].
    rewrite Hd. reflexivity.
Qed.
End Average.

(** ** The scripts on the mock bridge *)

Section Runs.
#[local] Existing Instance Mock.exact_floats.

(** A program that never stops at a breakpoint is polled 10 times, with 10
    sleeps. *)
Example polling_without_break :
  let run := BasicAgent.polling_loop (host := Mock.breaking_host 10) Mock.discovery [] in
  fst run = Return tt /\ polls (snd run) = 10%nat /\ sleeps (snd run) = 10%nat.
Proof. vm_compute. repeat split. Qed.

(** A program that stops at the third poll is polled 3 times, with 2
    sleeps. *)
Example polling_until_break :
  let run := BasicAgent.polling_loop (host := Mock.breaking_host 2) Mock.discovery [] in
  fst run = Return tt /\ polls (snd run) = 3%nat /\ sleeps (snd run) = 2%nat.
Proof. vm_compute. repeat split. Qed.

(** [get_output] against a bridge that answers 200, and against one that
    answers 404. *)
Example get_output_by_status :
  fst (AutonomousDebugAgent.get_output (host := Mock.ok_host)
         Mock.discovery "Build" Mock.fresh_agent) = Return (Some Mock.ok_text)
  /\ fst (AutonomousDebugAgent.get_output (host := Mock.missing_host)
            Mock.discovery "Build" Mock.fresh_agent) = Return None.
Proof. split; reflexivity. Qed.

(** The first category that applies wins, whatever the letter case. *)
Example classify_by_priority :
  classify "Null reference: X is NOT DEFINED" = Some UndefinedName
  /\ classify "Null Reference in Foo" = Some NullReference
  /\ classify "Cannot convert int to string" = Some TypeConversion
  /\ classify "Syntax error" = None.
Proof. repeat split. Qed.

(** Two state changes and a heartbeat: the agent holds the second
    snapshot, and nothing else changed. *)
Example mirror_after_three_messages :
  let host :=
    Mock.host [("first", JDict [("type", JStr "stateChange");
                                ("snapshot", JDict [("mode", JStr "Run")])]);
               ("second", JDict [("type", JStr "stateChange");
                                 ("snapshot", null_reference_snapshot)]);
               ("pong", JDict [("type", JStr "pong")])]
              {| status_code := 200; text := Mock.ok_text |} in
  AutonomousDebugAgent.self
    (AutonomousDebugAgent.deliver (host := host) Mock.discovery
       ["first"; "second"; "pong"; "not json"] Mock.fresh_agent)
  = AutonomousDebugAgent.set_current_state null_reference_snapshot
      AutonomousDebugAgent.init.
Proof. reflexivity. Qed.

(** Three log entries, one without a duration: the total is 42. *)
Example sum_of_some_logs :
  AutonomousDebugAgent.sum_durations (NInt 0) Mock.some_logs = Return (NInt 42)
  /\ recorded_total Mock.some_logs = 42%Z.
Proof. split; reflexivity. Qed.
End Runs.

(** * Further properties of the scripts *)

(** ** Runs and what they add to the trace *)

Section Emits.
Context {FM : FloatModel} {host : Host}.
Context {S : Type} (tr : S -> World).

Lemma emits_bind {A B} (Q1 : World -> Result A -> World -> Prop)
    (Q2 : A -> World -> Result B -> World -> Prop)
    (Q : World -> Result B -> World -> Prop) (m : M S A) (k : A -> M S B) :
  emits tr Q1 m ->
  (forall a, emits tr (Q2 a) (k a)) ->
  (forall w e n1, Q1 w (Raise e) n1 -> Q w (Raise e) n1) ->
  (forall w a n1 r n2,
     Q1 w (Return a) n1 -> Q2 a (w ++ n1)%list r n2 -> Q w r (n1 ++ n2)%list) ->
  emits tr Q (bind m k).
Proof.
  intros Hm Hk Hraise Hreturn s. unfold bind.
  destruct (Hm s) as (n1 & H1 & HQ1).
  destruct (m s) as [[a|e] s1]; cbn [fst snd] in *.
  - destruct (Hk a s1) as (n2 & H2 & HQ2).
    exists (n1 ++ n2)%list. split.
    + rewrite H2, H1, app_assoc. reflexivity.
    + apply (Hreturn _ a); [exact HQ1 | rewrite <- H1; exact HQ2].
  - exists n1. split; [exact H1 | apply Hraise; exact HQ1].
Qed.

Lemma emits_weaken {A} (Q Q' : World -> Result A -> World -> Prop) (m : M S A) :
  emits tr Q m -> (forall w r new, Q w r new -> Q' w r new) -> emits tr Q' m.
Proof.
  intros Hm HQ s. destruct (Hm s) as (new & Hnew & Hq).
  exists new. split; [exact Hnew | apply HQ; exact Hq].
Qed.

Lemma emits_nothing {A} (Q : World -> Result A -> World -> Prop) (m : M S A) :
  (forall s, snd (m s) = s) -> (forall s, Q (tr s) (fst (m s)) []) -> emits tr Q m.
Proof.
  intros Hs HQ s. exists []. rewrite Hs, app_nil_r. split; [reflexivity | apply HQ].
Qed.

Lemma wire_app (n1 n2 : World) : wire (n1 ++ n2)%list = (wire n1 ++ wire n2)%list.
Proof. apply filter_app. Qed.

Lemma is_prefix_nil {A} (l : list A) : is_prefix [] l.
Proof. exists l. reflexivity. Qed.

Lemma is_prefix_app {A} (l l1 l2 : list A) :
  is_prefix l1 l2 -> is_prefix (l ++ l1)%list (l ++ l2)%list.
Proof. intros (rest & ->). exists rest. rewrite <- ?app_assoc. reflexivity. Qed.

Lemma is_prefix_longer {A} (l l1 l2 : list A) :
  is_prefix l l1 -> is_prefix l (l1 ++ l2)%list.
Proof. intros (rest & ->). exists (rest ++ l2)%list. rewrite <- ?app_assoc. reflexivity. Qed.

Lemma is_prefix_of_nil {A} (l : list A) : is_prefix l [] -> l = [].
Proof. intros (rest & Heq). destruct l; [reflexivity | discriminate]. Qed.

(** Sequencing: what [m] puts on the network, then what [k] does. *)
Lemma exactly_bind {A B} (es1 es2 : list Event) (m : M S A) (k : A -> M S B) :
  emits tr (on_wire_exactly es1) m ->
  (forall a, emits tr (on_wire_exactly es2) (k a)) ->
  emits tr (on_wire_exactly (es1 ++ es2)) (bind m k).
Proof.
  intros Hm Hk. apply (emits_bind _ (fun _ => on_wire_exactly es2) _ m k Hm Hk).
  - intros w e n1 (Hpre & _). split; [apply is_prefix_longer; exact Hpre | discriminate].
  - intros w a n1 r n2 (_ & H1) (Hpre & H2). unfold on_wire_exactly.
    rewrite wire_app, (H1 a eq_refl). split.
    + apply is_prefix_app. exact Hpre.
    + intros b Hb. rewrite (H2 b Hb). reflexivity.
Qed.

Lemma within_bind {A B} (es1 es2 : list Event) (m : M S A) (k : A -> M S B) :
  emits tr (on_wire_exactly es1) m ->
  (forall a, emits tr (on_wire_within es2) (k a)) ->
  emits tr (on_wire_within (es1 ++ es2)) (bind m k).
Proof.
  intros Hm Hk. apply (emits_bind _ (fun _ => on_wire_within es2) _ m k Hm Hk).
  - intros w e n1 (Hpre & _). apply is_prefix_longer. exact Hpre.
  - intros w a n1 r n2 (_ & H1) Hpre. unfold on_wire_within.
    rewrite wire_app, (H1 a eq_refl). apply is_prefix_app. exact Hpre.
Qed.

Lemma within_then_silent {A B} (es : list Event) (m : M S A) (k : A -> M S B) :
  emits tr (on_wire_within es) m ->
  (forall a, emits tr (on_wire_exactly []) (k a)) ->
  emits tr (on_wire_within es) (bind m k).
Proof.
  intros Hm Hk. apply (emits_bind _ (fun _ => on_wire_exactly []) _ m k Hm Hk).
  - intros w e n1 Hpre. exact Hpre.
  - intros w a n1 r n2 Hpre (Hnil & _). unfold on_wire_within in *.
    rewrite wire_app, (is_prefix_of_nil _ Hnil), app_nil_r. exact Hpre.
Qed.

Lemma exactly_within {A} (es : list Event) (m : M S A) :
  emits tr (on_wire_exactly es) m -> emits tr (on_wire_within es) m.
Proof. intros Hm. apply (emits_weaken _ _ m Hm). intros w r new (Hpre & _). exact Hpre. Qed.

Lemma silent_within {A} (es : list Event) (m : M S A) :
  emits tr (on_wire_exactly []) m -> emits tr (on_wire_within es) m.
Proof.
  intros Hm. apply (emits_weaken _ _ m Hm). intros w r new (Hpre & _).
  unfold on_wire_within. rewrite (is_prefix_of_nil _ Hpre). apply is_prefix_nil.
Qed.

Lemma exactly_ret {A} (a : A) : emits tr (on_wire_exactly []) (ret a).
Proof.
  apply emits_nothing; [reflexivity|]. intro s. split; [apply is_prefix_nil | reflexivity].
Qed.

Lemma exactly_raise {A} (es : list Event) (e : exn) :
  emits tr (on_wire_exactly es) (@raise S A e).
Proof.
  apply emits_nothing; [reflexivity|]. intro s. split; [apply is_prefix_nil | discriminate].
Qed.

Lemma exactly_try {A} (r : Result A) : emits tr (on_wire_exactly []) (try r).
Proof.
  apply emits_nothing; [reflexivity|]. intro s. split; [apply is_prefix_nil | reflexivity].
Qed.

Lemma exactly_resp_json (resp : Response) : emits tr (on_wire_exactly []) (resp_json resp).
Proof.
  unfold resp_json. destruct (json_loads (text resp)); [apply exactly_ret | apply exactly_raise].
Qed.

Lemma exactly_for_each {A} (xs : list A) (body : A -> M S bool) :
  (forall x, emits tr (on_wire_exactly []) (body x)) ->
  emits tr (on_wire_exactly []) (for_each xs body).
Proof.
  intros Hbody. induction xs as [|x xs IH]; cbn [for_each].
  - apply exactly_ret.
  - apply (exactly_bind [] []); [apply Hbody|].
    intros [|]; [apply exactly_ret | exact IH].
Qed.
End Emits.

Section EmitsWorld.
Context {FM : FloatModel} {host : Host}.

Lemma exactly_silent_emit (e : Event) :
  is_wire e = false -> emits whole (on_wire_exactly []) (emit e).
Proof.
  intros He s. exists [e]. split; [reflexivity|].
  unfold on_wire_exactly, wire; cbn [filter]. rewrite He.
  split; [apply is_prefix_nil | reflexivity].
Qed.

Lemma exactly_wire_emit (e : Event) :
  is_wire e = true -> emits whole (on_wire_exactly [e]) (emit e).
Proof.
  intros He s. exists [e]. split; [reflexivity|].
  unfold on_wire_exactly, wire; cbn [filter]. rewrite He.
  split; [exists []; reflexivity | reflexivity].
Qed.

Lemma exactly_send (r : Request) : emits whole (on_wire_exactly [EvRequest r]) (send r).
Proof.
  intros w. exists [EvRequest r]. unfold send.
  destruct (bridge w r); (split; [reflexivity|]);
    (split; [exists []; reflexivity | reflexivity]).
Qed.

Lemma exactly_now : emits whole (on_wire_exactly []) now.
Proof.
  apply emits_nothing; [reflexivity|]. intro s. split; [apply is_prefix_nil | reflexivity].
Qed.

Lemma emits_io {A} (Q : World -> Result A -> World -> Prop) (m : M World A) :
  emits whole Q m -> emits AutonomousDebugAgent.world Q (AutonomousDebugAgent.io m).
Proof.
  intros Hm s. unfold AutonomousDebugAgent.io.
  destruct (Hm (AutonomousDebugAgent.world s)) as (new & Hnew & HQ).
  destruct (m (AutonomousDebugAgent.world s)) as [r w]. exists new. split; assumption.
Qed.

Lemma exactly_update (f : AutonomousDebugAgent.Agent -> AutonomousDebugAgent.Agent) :
  emits AutonomousDebugAgent.world (on_wire_exactly []) (AutonomousDebugAgent.update f).
Proof.
  intro s. exists []. cbn. rewrite app_nil_r.
  split; [reflexivity | split; [apply is_prefix_nil | reflexivity]].
Qed.
End EmitsWorld.

Ltac wire_known := fail.

Ltac wire_leaf :=
  first [ wire_known | apply exactly_ret | apply exactly_try | apply exactly_resp_json
        | apply exactly_now | apply exactly_update | apply exactly_send
        | apply exactly_silent_emit; reflexivity
        | apply exactly_wire_emit; reflexivity
        | apply emits_io;
          first [ apply exactly_send
                | apply exactly_silent_emit; reflexivity
                | apply exactly_wire_emit; reflexivity ]
        | apply exactly_raise ].

Ltac wire_step :=
  lazymatch goal with
  | |- emits _ (on_wire_exactly ?es) (bind _ _) =>
      first [ apply (exactly_bind _ [] es); [solve [repeat wire_step] | intro]
            | lazymatch es with
              | ?e :: ?rest =>
                  apply (exactly_bind _ [e] rest); [solve [repeat wire_step] | intro]
              end ]
  | |- emits _ (on_wire_within ?es) (bind _ _) =>
      first [ apply (within_bind _ [] es); [solve [repeat wire_step] | intro]
            | lazymatch es with
              | ?e :: ?rest =>
                  apply (within_bind _ [e] rest); [solve [repeat wire_step] | intro]
              end ]
  | |- emits _ _ (if ?b then _ else _) => destruct b
  | |- emits _ _ (match ?x with _ => _ end) => destruct x
  | |- emits _ (on_wire_within _) _ => apply silent_within
  | |- emits _ _ (for_each _ _) => apply exactly_for_each; intro
  | |- emits _ _ _ => wire_leaf
  end.

(** ** What each script puts on the network *)

Section Network.
Context {FM : FloatModel} {host : Host} (discovery : Discovery).

Lemma analyze_error_silent error_item :
  emits AutonomousDebugAgent.world (on_wire_exactly [])
    (AutonomousDebugAgent.analyze_error error_item).
Proof. unfold AutonomousDebugAgent.analyze_error. repeat wire_step. Qed.

Ltac wire_known ::= apply analyze_error_silent.

Lemma analyze_session_wire :
  emits AutonomousDebugAgent.world (on_wire_exactly (session_requests discovery))
    (AutonomousDebugAgent.analyze_session discovery).
Proof.
  unfold AutonomousDebugAgent.analyze_session, AutonomousDebugAgent.get_errors,
    AutonomousDebugAgent.get_output, AutonomousDebugAgent.get_logs,
    AutonomousDebugAgent.report_error, AutonomousDebugAgent.show_suggestion,
    session_requests.
  repeat wire_step.
Qed.

(** [analyze_session] fetches the errors, the build output and the request
    log, in this order and once each; an exception cuts the sequence short,
    and a run that returns has made all three requests. *)
Theorem analyze_session_requests :
  emits AutonomousDebugAgent.world (on_wire_exactly (session_requests discovery))
    (AutonomousDebugAgent.analyze_session discovery).
Proof. exact analyze_session_wire. Qed.

(** [websocket_agent.py] sends the setup batch, then the start command,
    and only then opens the WebSocket; it closes it when interrupted.  When
    a request fails, or the batch answer has no [ok], nothing further goes
    out. *)
Theorem websocket_main_network (interrupted : bool) :
  emits whole (on_wire_exactly (websocket_main_wire discovery interrupted))
    (WebSocketAgent.main discovery interrupted).
Proof.
  unfold WebSocketAgent.main, WebSocketAgent.batch_execute,
    WebSocketAgent.execute_command, websocket_main_wire.
  cbn [app]. repeat wire_step.
Qed.

Lemma poll_polls_once (i : nat) :
  emits whole (on_wire_exactly [EvRequest (get_from discovery "/state")])
    (BasicAgent.poll discovery i).
Proof. unfold BasicAgent.poll, BasicAgent.get_state. repeat wire_step. Qed.

Lemma polling_within (n : nat) :
  forall a,
    emits whole (on_wire_within (repeat (EvRequest (get_from discovery "/state")) n))
      (for_each (seq a n) (BasicAgent.poll discovery)).
Proof.
  induction n as [|n IH]; intro a; cbn [seq for_each repeat].
  - apply silent_within, exactly_ret.
  - apply (within_bind _ [_] _); [apply poll_polls_once|].
    intros [|]; [apply silent_within, exactly_ret | apply IH].
Qed.

(** [basic_agent.py] talks to the bridge in one fixed order: the state,
    three single breakpoints, the batch of three, the errors, the metrics,
    the start command, and then up to 10 polls of the state.  The first
    failure ends the script, so the requests made are always a prefix of
    this list: 18 at most. *)
Theorem basic_main_requests_in_order :
  emits whole (on_wire_within (basic_main_requests discovery)) (BasicAgent.main discovery)
  /\ List.length (basic_main_requests discovery) = 18%nat.
Proof.
  split; [|reflexivity].
  unfold BasicAgent.main, BasicAgent.get_state, BasicAgent.execute_command,
    BasicAgent.batch_execute, BasicAgent.get_errors, BasicAgent.get_metrics,
    BasicAgent.show_error, basic_main_requests.
  cbn [app]. repeat wire_step.
  apply within_then_silent; [apply polling_within|].
  intro. repeat wire_step.
Qed.

(** [run_debugging_cycle] triggers the build, fetches the errors and, last,
    may start the debug session: its requests are a prefix of these three,
    in this order. *)
Lemma cycle_within :
  emits AutonomousDebugAgent.world (on_wire_within (cycle_requests discovery))
    (AutonomousDebugAgent.run_debugging_cycle discovery).
Proof.
  unfold AutonomousDebugAgent.run_debugging_cycle, AutonomousDebugAgent.execute_command,
    AutonomousDebugAgent.get_errors, AutonomousDebugAgent.batch_execute,
    AutonomousDebugAgent.analyze_only, cycle_requests.
  repeat wire_step.
Qed.

Lemma emits_and {S A} (tr : S -> World) (Q1 Q2 : World -> Result A -> World -> Prop)
    (m : M S A) :
  emits tr Q1 m -> emits tr Q2 m -> emits tr (fun w r new => Q1 w r new /\ Q2 w r new) m.
Proof.
  intros H1 H2 s. destruct (H1 s) as (new & Hnew & HQ1). destruct (H2 s) as (new' & Hnew' & HQ2).
  rewrite Hnew in Hnew'. apply app_inv_head in Hnew'. subst new'.
  exists new. repeat split; assumption.
Qed.

Lemma in_wire (e : Event) (new : World) : is_wire e = true -> In e new -> In e (wire new).
Proof. intros He Hin. apply filter_In. split; assumption. Qed.

Lemma not_in_prefix (e : Event) (new : World) (es : list Event) :
  is_wire e = true -> is_prefix (wire new) es -> ~ In e es -> ~ In e new.
Proof.
  intros He (rest & ->) Hnot Hin. apply Hnot, in_or_app. left.
  apply in_wire; assumption.
Qed.

(** A step that cannot start the session, before the rest of the cycle. *)
Lemma cycle_skip {A} (es : list Event) (m : M AutonomousDebugAgent.AgentWorld A)
    (k : A -> M AutonomousDebugAgent.AgentWorld unit) :
  emits AutonomousDebugAgent.world (on_wire_exactly es) m ->
  ~ In (EvRequest (start_session_request discovery)) es ->
  (forall a, emits AutonomousDebugAgent.world (started_without_errors discovery) (k a)) ->
  emits AutonomousDebugAgent.world (started_without_errors discovery) (bind m k).
Proof.
  intros Hm Hes Hk.
  apply (emits_bind _ _ (fun _ => started_without_errors discovery) _ m k Hm Hk).
  - intros w e n1 (Hpre & _) Hin.
    exfalso. apply (not_in_prefix (EvRequest (start_session_request discovery)) n1 es eq_refl Hpre Hes Hin).
  - intros w a n1 r n2 (Hpre & _) Hrest Hin.
    apply in_app_or in Hin as [Hin|Hin];
      [exfalso; apply (not_in_prefix (EvRequest (start_session_request discovery)) n1 es eq_refl Hpre Hes Hin)|].
    destruct (Hrest Hin) as (pre & post & errors & -> & Hanswer & Hfalse).
    exists (n1 ++ pre)%list, post, errors. repeat split.
    + rewrite <- app_assoc. reflexivity.
    + rewrite app_assoc. exact Hanswer.
    + exact Hfalse.
Qed.

Lemma get_errors_answer :
  emits AutonomousDebugAgent.world
    (fun w r new => new = [EvRequest (get_from discovery "/errors")]
                    /\ r = answer w (get_from discovery "/errors"))
    (AutonomousDebugAgent.get_errors discovery).
Proof.
  intro s. rewrite autonomous_get_errors_run.
  exists [EvRequest (get_from discovery "/errors")]. repeat split.
Qed.

Lemma cycle_starts_without_errors :
  emits AutonomousDebugAgent.world (started_without_errors discovery)
    (AutonomousDebugAgent.run_debugging_cycle discovery).
Proof.
  unfold AutonomousDebugAgent.run_debugging_cycle.
  apply (cycle_skip []); [repeat wire_step | intros [] | intro].
  apply (cycle_skip []); [repeat wire_step | intros [] | intro].
  apply (cycle_skip [EvRequest (build_request discovery)]);
    [unfold AutonomousDebugAgent.execute_command; repeat wire_step
    | intros [Heq|[]]; discriminate Heq | intro result].
  apply (cycle_skip []); [repeat wire_step | intros [] | intro ok].
  apply (cycle_skip []); [repeat wire_step | intros [] | intro].
  apply (cycle_skip []); [repeat wire_step | intros [] | intro].
  apply (emits_bind _ _
           (fun errors _ _ n2 =>
              py_truth errors = true -> ~ In (EvRequest (start_session_request discovery)) n2)
           _ _ _ get_errors_answer).
  - intro errors. destruct (py_truth errors).
    + apply (emits_weaken _ (on_wire_exactly [])).
      * unfold AutonomousDebugAgent.analyze_only. repeat wire_step.
      * intros w r new (Hpre & _) _.
        apply (not_in_prefix (EvRequest (start_session_request discovery)) new [] eq_refl Hpre). intros [].
    + apply (emits_weaken _ (on_wire_within [EvRequest (start_session_request discovery)])).
      * unfold AutonomousDebugAgent.batch_execute. repeat wire_step.
      * intros w r new _ Hfalse. discriminate Hfalse.
  - intros w e n1 (-> & _) [Heq|[]]. discriminate Heq.
  - intros w errors n1 r n2 (-> & Hanswer) Hrest Hin.
    destruct Hin as [Heq|Hin]; [discriminate Heq|].
    exists [], n2, errors. repeat split.
    + rewrite app_nil_r. symmetry. exact Hanswer.
    + destruct (py_truth errors); [exfalso; apply (Hrest eq_refl Hin) | reflexivity].
Qed.

(** [run_debugging_cycle] sends at most the build command, the request for
    the errors and the batch that starts the session, in this order; and it
    starts the session only when [/errors] answered with a value that is
    false.  With build errors, or when the analysis of one of them fails,
    no session is started. *)
Theorem debugging_starts_only_without_errors :
  emits AutonomousDebugAgent.world
    (fun w r new =>
       on_wire_within (cycle_requests discovery) w r new
       /\ started_without_errors discovery w r new)
    (AutonomousDebugAgent.run_debugging_cycle discovery).
Proof. apply emits_and; [apply cycle_within | apply cycle_starts_without_errors]. Qed.

(** ** What a message makes an agent do *)

#[local] Existing Instance extends_preorder.
#[local] Existing Instance agent_extends_preorder.

Lemma printed_line (line : string) : preserves (extends printed) (print line).
Proof. apply extends_emit. exists line. reflexivity. Qed.

Ltac printed_leaf :=
  first [ apply printed_line | apply extends_io; apply printed_line ].

(** The handler of [websocket_agent.py] reports and does nothing else:
    whatever the message, it sends no request, does not sleep and does not
    touch the connection. *)
Theorem websocket_on_message_only_prints (message : string) (w : World) :
  exists new,
    snd (WebSocketAgent.on_message message w) = (w ++ new)%list /\ Forall printed new.
Proof.
  revert w. change (preserves (extends printed) (WebSocketAgent.on_message message)).
  unfold WebSocketAgent.on_message, WebSocketAgent.show_frame.
  repeat preserves_step printed_leaf.
Qed.

Lemma handle_exception_silent snapshot :
  emits AutonomousDebugAgent.world (on_wire_exactly [])
    (AutonomousDebugAgent.handle_exception snapshot).
Proof. unfold AutonomousDebugAgent.handle_exception. repeat wire_step. Qed.

Lemma emits_bind_try {S A B} (tr : S -> World) (Q : World -> Result B -> World -> Prop)
    (r : Result A) (k : A -> M S B) :
  match r with
  | Return a => emits tr Q (k a)
  | Raise e => emits tr Q (raise e)
  end ->
  emits tr Q (bind (try r) k).
Proof. destruct r; intros Hk s; apply Hk. Qed.

Lemma emits_bind_ret {S A B} (tr : S -> World) (Q : World -> Result B -> World -> Prop)
    (a : A) (k : A -> M S B) :
  emits tr Q (k a) -> emits tr Q (bind (ret a) k).
Proof. intros Hk s. apply Hk. Qed.

(** A message makes the agent of [autonomous_debug_agent.py] talk to the
    bridge only when it is a [stateChange] to the mode Design, and then it
    makes the three requests of the session analysis; on every other
    message, whether it is handled or raises, nothing goes out. *)
Theorem on_message_requests (message : string) :
  emits AutonomousDebugAgent.world
    (on_wire_exactly (if ends_session message then session_requests discovery else []))
    (AutonomousDebugAgent.on_message discovery message).
Proof.
  unfold AutonomousDebugAgent.on_message, ends_session, mode_of, snapshot_of.
  destruct (json_loads message) as [data|]; [|apply exactly_raise].
  apply emits_bind_ret.
  apply emits_bind_try.
  destruct data as [| | | | | |d]; try apply exactly_raise.
  cbn [py_get].
  destruct (dict_get "type" d) as [event_type|]; [|cbn; apply exactly_ret].
  destruct (py_eq_str event_type "connected") eqn:Hconnected.
  - rewrite (py_eq_str_other event_type "connected" "stateChange" Hconnected eq_refl).
    repeat wire_step.
  - destruct (py_eq_str event_type "stateChange"); [|apply exactly_ret].
    apply emits_bind_try. cbn [py_getitem].
    destruct (dict_get "snapshot" d) as [snapshot|]; [|apply exactly_raise].
    apply (exactly_bind _ [] _); [apply exactly_update | intros _].
    apply emits_bind_try.
    destruct (py_getitem snapshot "mode") as [mode|e]; [|apply exactly_raise].
    apply (exactly_bind _ [] _); [repeat wire_step | intros _].
    destruct (py_eq_str mode "Break") eqn:Hbreak.
    + rewrite (py_eq_str_other mode "Break" "Design" Hbreak eq_refl).
      repeat wire_step. apply handle_exception_silent.
    + destruct (py_eq_str mode "Design"); [|apply exactly_ret].
      apply (exactly_bind _ [] _); [repeat wire_step | intros _].
      apply analyze_session_wire.
Qed.

(** ** How the autonomous agent starts *)







(** ** Messages that are not events *)

(** A message that is no JSON text, or that decodes to something other
    than an object, makes either handler raise (JSONDecodeError in the
    first case, AttributeError in the second) before it has printed or
    changed anything. *)
Theorem unreadable_message_raises (message : string) (e : exn) :
  decoding_error message = Some e ->
  (forall w, WebSocketAgent.on_message message w = (Raise e, w))
  /\ (forall s, AutonomousDebugAgent.on_message discovery message s = (Raise e, s)).
Proof.
  unfold decoding_error, WebSocketAgent.on_message, AutonomousDebugAgent.on_message.
  destruct (json_loads message) as [data|].
  - destruct data; intros He; try discriminate He;
      injection He as <-; split; reflexivity.
  - intros He. injection He as <-. split; reflexivity.
Qed.

(** An event of a type the handler does not know is dropped without a
    word.  For the agent of [autonomous_debug_agent.py] that includes the
    heartbeat [pong], which [websocket_agent.py] acknowledges with a line. *)
Theorem unknown_event_is_dropped (message : string) (d : list (string * JSON)) :
  json_loads message = Some (JDict d) ->
  py_eq_str (field "type" JNull d) "connected" = false ->
  py_eq_str (field "type" JNull d) "stateChange" = false ->
  (forall s, AutonomousDebugAgent.on_message discovery message s = (Return tt, s))
  /\ (forall w,
        WebSocketAgent.on_message message w
        = (Return tt,
           if py_eq_str (field "type" JNull d) "pong"
           then (w ++ [EvPrint "💓 Heartbeat OK"])%list else w)).
Proof.
  intros Hloads Hconnected Hchange.
  unfold AutonomousDebugAgent.on_message, WebSocketAgent.on_message.
  rewrite Hloads. split; intro s.
  - rewrite bind_ret, bind_try, py_get_dict, Hconnected, Hchange. reflexivity.
  - rewrite bind_ret, bind_try, py_get_dict, Hconnected, Hchange.
    destruct (py_eq_str (field "type" JNull d) "pong"); reflexivity.
Qed.

(** The agent mirrors a snapshot before it looks into it: a [stateChange]
    whose snapshot has no mode (or is no object) makes [on_message] raise
    without a line printed, and [current_state] is that snapshot all the
    same. *)
Theorem snapshot_is_mirrored_before_it_is_read
    (message : string) (d : list (string * JSON)) (snapshot : JSON) (e : exn)
    (s : AutonomousDebugAgent.AgentWorld) :
  json_loads message = Some (JDict d) ->
  py_eq_str (field "type" JNull d) "stateChange" = true ->
  dict_get "snapshot" d = Some snapshot ->
  py_getitem snapshot "mode" = Raise e ->
  AutonomousDebugAgent.on_message discovery message s
  = (Raise e,
     {| AutonomousDebugAgent.self :=
          AutonomousDebugAgent.set_current_state snapshot (AutonomousDebugAgent.self s);
        AutonomousDebugAgent.world := AutonomousDebugAgent.world s |}).
Proof.
  intros Hloads Hchange Hsnapshot Hmode.
  unfold AutonomousDebugAgent.on_message. rewrite Hloads.
  rewrite bind_ret, bind_try, py_get_dict.
  destruct (py_eq_str (field "type" JNull d) "connected") eqn:Hconnected.
  - rewrite (py_eq_str_other _ "connected" "stateChange" Hconnected eq_refl) in Hchange.
    discriminate Hchange.
  - rewrite Hchange, bind_try. cbn [py_getitem]. rewrite Hsnapshot.
    rewrite bind_update, bind_try, Hmode. reflexivity.
Qed.
End Network.

Section NetworkMock.
#[local] Existing Instance Mock.exact_floats.

Lemma not_json_raises :
  (forall w, WebSocketAgent.on_message (host := Mock.events_host) "not json" w
             = (Raise JSONDecodeError, w))
  /\ (forall s, AutonomousDebugAgent.on_message (host := Mock.events_host)
                  Mock.discovery "not json" s = (Raise JSONDecodeError, s)).
Proof.
  exact (unreadable_message_raises (host := Mock.events_host) Mock.discovery
           "not json" JSONDecodeError eq_refl).
Defined.

Lemma pong_is_dropped :
  (forall s, AutonomousDebugAgent.on_message (host := Mock.events_host)
               Mock.discovery Mock.pong_text s = (Return tt, s))
  /\ (forall w, WebSocketAgent.on_message (host := Mock.events_host) Mock.pong_text w
                = (Return tt, (w ++ [EvPrint "💓 Heartbeat OK"])%list)).
Proof.
  exact (unknown_event_is_dropped (host := Mock.events_host) Mock.discovery
           Mock.pong_text Mock.pong_fields eq_refl eq_refl eq_refl).
Defined.

Lemma modeless_snapshot_is_mirrored :
  AutonomousDebugAgent.on_message (host := Mock.events_host)
    Mock.discovery Mock.modeless_text Mock.fresh_agent
  = (Raise KeyError,
     {| AutonomousDebugAgent.self :=
          AutonomousDebugAgent.set_current_state Mock.modeless_snapshot
            AutonomousDebugAgent.init;
        AutonomousDebugAgent.world := [] |}).
Proof.
  exact (snapshot_is_mirrored_before_it_is_read (host := Mock.events_host) Mock.discovery
           Mock.modeless_text Mock.modeless_fields Mock.modeless_snapshot KeyError
           Mock.fresh_agent eq_refl eq_refl eq_refl eq_refl).
Defined.
End NetworkMock.

(** ** Edge cases of the handlers *)

Section Edges.
Context {FM : FloatModel} {host : Host} (discovery : Discovery).

Lemma bind_io_print {B} (line : string) (k : unit -> M AutonomousDebugAgent.AgentWorld B)
    (s : AutonomousDebugAgent.AgentWorld) :
  bind (AutonomousDebugAgent.io (print line)) k s
  = k tt {| AutonomousDebugAgent.self := AutonomousDebugAgent.self s;
            AutonomousDebugAgent.world :=
              (AutonomousDebugAgent.world s ++ [EvPrint line])%list |}.
Proof. reflexivity. Qed.

Lemma bind_print {B} (line : string) (k : unit -> M World B) (w : World) :
  bind (print line) k w = k tt (w ++ [EvPrint line])%list.
Proof. reflexivity. Qed.

(** [handle_exception] on a snapshot whose exception is a string and whose
    locals are an object, or absent: it returns, having shown at most ten
    names of locals, and advises on the exception by its name, letter case
    included, a null reference before an index out of range. *)
Theorem handle_exception_advises
    (d : list (string * JSON)) (exception : string) (locals : list (string * JSON))
    (s : AutonomousDebugAgent.AgentWorld) :
  field "exception" (JStr "") d = JStr exception ->
  field "locals" (JDict []) d = JDict locals ->
  AutonomousDebugAgent.handle_exception (JDict d) s
  = (Return tt,
     {| AutonomousDebugAgent.self := AutonomousDebugAgent.self s;
        AutonomousDebugAgent.world :=
          (AutonomousDebugAgent.world s
           ++ exception_header (JStr exception) locals ++ exception_advice exception)%list |}).
Proof.
  intros Hexception Hlocals. unfold AutonomousDebugAgent.handle_exception.
  rewrite bind_try, py_get_dict, Hexception, bind_try, py_get_dict, Hlocals.
  rewrite !bind_io_print, bind_try. cbn [py_keys].
  rewrite bind_io_print, bind_try. cbn [py_in].
  unfold exception_advice, exception_header.
  destruct (contains "NullReferenceException" exception).
  - rewrite bind_io_print. cbn. rewrite <- !app_assoc. reflexivity.
  - rewrite bind_try. cbn [py_in].
    destruct (contains "IndexOutOfRangeException" exception).
    + rewrite bind_io_print. cbn. rewrite <- !app_assoc. reflexivity.
    + cbn. rewrite <- !app_assoc. reflexivity.
Qed.

(** A snapshot whose locals are there but are no object (null, say) makes
    [handle_exception] raise AttributeError after its first two lines,
    before any advice. *)
Theorem handle_exception_needs_locals
    (d : list (string * JSON)) (locals : JSON) (s : AutonomousDebugAgent.AgentWorld) :
  dict_get "locals" d = Some locals ->
  is_dict locals = false ->
  AutonomousDebugAgent.handle_exception (JDict d) s
  = (Raise AttributeError,
     {| AutonomousDebugAgent.self := AutonomousDebugAgent.self s;
        AutonomousDebugAgent.world :=
          (AutonomousDebugAgent.world s
           ++ [EvPrint (nl ++ "🐛 Exception Handler:");
               EvPrint ("   Type: " ++ py_str (field "exception" (JStr "") d))])%list |}).
Proof.
  intros Hlocals Hshape. unfold AutonomousDebugAgent.handle_exception.
  assert (Hfield : field "locals" (JDict []) d = locals)
    by (unfold field; rewrite Hlocals; reflexivity).
  rewrite bind_try, py_get_dict, bind_try, py_get_dict, Hfield.
  rewrite !bind_io_print, bind_try.
  destruct locals; try discriminate Hshape; cbn; rewrite <- !app_assoc; reflexivity.
Qed.

(** An error item whose description is there but is no string (null, say)
    makes [analyze_error] raise AttributeError once it has printed the
    item. *)
Theorem analyze_error_needs_text
    (d : list (string * JSON)) (description : JSON) (s : AutonomousDebugAgent.AgentWorld) :
  dict_get "description" d = Some description ->
  is_str description = false ->
  AutonomousDebugAgent.analyze_error (JDict d) s
  = (Raise AttributeError,
     {| AutonomousDebugAgent.self := AutonomousDebugAgent.self s;
        AutonomousDebugAgent.world :=
          (AutonomousDebugAgent.world s ++ analysis_header d)%list |}).
Proof.
  intros Hd Hshape.
  assert (Hfield : field "description" (JStr "") d = description)
    by (unfold field; rewrite Hd; reflexivity).
  rewrite analyze_error_run, Hfield.
  destruct description; try discriminate Hshape; reflexivity.
Qed.

Lemma sum_durations_app (good rest : list JSON) :
  Forall log_entry good ->
  forall total,
    AutonomousDebugAgent.sum_durations (NInt total) (good ++ rest)
    = AutonomousDebugAgent.sum_durations (NInt (total + recorded_total good)) rest.
Proof.
  induction 1 as [|log good (d & -> & Hd) _ IH]; intro total.
  - cbn. rewrite Z.add_0_r. reflexivity.
  - unfold recorded_total in *.
    cbn [app AutonomousDebugAgent.sum_durations py_get flat_map duration_of].
    destruct Hd as [Hd|(z & Hd)]; rewrite Hd; cbn [py_add num_add app fold_right];
      rewrite IH; do 2 f_equal; lia.
Qed.

(** The default 0 of [log.get('durationMs', 0)] covers a missing key only:
    the first entry whose [durationMs] is there but is no number (null,
    say) ends the sum with TypeError. *)
Theorem duration_must_be_a_number
    (good rest : list JSON) (d : list (string * JSON)) (duration : JSON) :
  Forall log_entry good ->
  dict_get "durationMs" d = Some duration ->
  is_number duration = false ->
  AutonomousDebugAgent.sum_durations (NInt 0) (good ++ JDict d :: rest)
  = Raise TypeError.
Proof.
  intros Hgood Hd Hshape. rewrite (sum_durations_app good _ Hgood).
  cbn [AutonomousDebugAgent.sum_durations py_get]. rewrite Hd.
  destruct duration; try discriminate Hshape; reflexivity.
Qed.

Lemma for_each_show_frame (frames : list (nat * JSON)) (w : World) :
  for_each frames WebSocketAgent.show_frame w
  = (Return tt, (w ++ map frame_line frames)%list).
Proof.
  revert w. induction frames as [|[i frame] frames IH]; intro w.
  - cbn. rewrite app_nil_r. reflexivity.
  - rewrite for_each_cons. unfold WebSocketAgent.show_frame at 1.
    rewrite bind_print. cbn [ret]. rewrite IH.
    cbn [map]. rewrite <- app_assoc. reflexivity.
Qed.

Ltac run_on :=
  repeat first [ rewrite bind_ret | rewrite bind_try | rewrite bind_print
               | rewrite py_get_dict
               | progress cbn [py_getitem py_len py_truth py_slice_to py_iter py_str] ].

(** On a [stateChange] to Break, [websocket_agent.py] reports the place,
    the number of locals and, of a stack that is not empty, the top three
    frames at most, numbered from 1. *)
Theorem break_shows_three_frames
    (message : string) (d snapshot locals : list (string * JSON)) (frames : list JSON)
    (w : World) :
  json_loads message = Some (JDict d) ->
  field "type" JNull d = JStr "stateChange" ->
  dict_get "snapshot" d = Some (JDict snapshot) ->
  dict_get "mode" snapshot = Some (JStr "Break") ->
  field "locals" (JDict []) snapshot = JDict locals ->
  field "stack" (JList []) snapshot = JList frames ->
  WebSocketAgent.on_message message w
  = (Return tt, (w ++ break_report snapshot locals ++ stack_report frames)%list)
  /\ (List.length (stack_report frames) <= 4)%nat.
Proof.
  intros Hloads Htype Hsnapshot Hmode Hlocals Hstack. split.
  - unfold WebSocketAgent.on_message. rewrite Hloads.
    run_on. rewrite Htype.
    change (py_eq_str (JStr "stateChange") "connected") with false.
    change (py_eq_str (JStr "stateChange") "stateChange") with true.
    cbv iota. run_on. rewrite Hsnapshot. run_on. rewrite Hmode. run_on.
    change (py_eq_str (JStr "Break") "Break") with true.
    cbv iota. run_on. rewrite Hlocals. run_on. rewrite Hstack. run_on.
    unfold break_report, stack_report.
    destruct frames as [|frame frames]; run_on.
    + cbn [ret]. rewrite <- !app_assoc. reflexivity.
    + rewrite for_each_show_frame.
      rewrite <- !app_assoc. reflexivity.
  - unfold stack_report. destruct frames as [|frame frames]; [cbn; lia|].
    cbn [List.length]. rewrite length_map, length_combine, length_seq, Nat.min_id.
    pose proof (firstn_le_length 3 (frame :: frames)) as Hle.
    rewrite length_firstn. lia.
Qed.

Lemma poll_stops (n : nat) :
  forall (a : nat) (w : World),
  exists new,
    snd (for_each (seq a n) (BasicAgent.poll discovery) w) = (w ++ new)%list
    /\ stops_at_failure w new (fst (for_each (seq a n) (BasicAgent.poll discovery) w)).
Proof.
  induction n as [|n IH]; intros a w.
  - exists []. cbn. rewrite app_nil_r. split; [reflexivity|].
    intros pre request post Heq. destruct pre; discriminate.
  - cbn [seq]. rewrite for_each_cons.
    pose proof (poll_cases discovery a w) as Hcase. cbv zeta in Hcase.
    destruct (fetched_mode w (get_from discovery "/state")) as [mode|] eqn:Hmode.
    + destruct (py_eq_str mode "Break").
      * destruct Hcase as (res & evs & Hrun & Hres & Hevs). rewrite Hrun.
        exists (EvRequest (get_from discovery "/state") :: evs).
        split; [destruct res as [[|]|e]; [reflexivity | contradiction | reflexivity]|].
        intros pre request post Heq Hnone. destruct pre as [|e1 pre]; cbn in Heq.
        -- injection Heq as <- _. rewrite app_nil_r, Hmode in Hnone. discriminate.
        -- injection Heq as _ ->. apply Forall_app in Hevs as [_ Hevs].
           inversion Hevs as [|? ? [line Hline] _]. discriminate Hline.
      * destruct Hcase as (line & Hrun). rewrite Hrun.
        set (w' := (w ++ [EvRequest (get_from discovery "/state"); EvPrint line;
                          EvSleep 500])%list).
        destruct (IH (S a) w') as (new & Hnew & Hstops).
        exists (EvRequest (get_from discovery "/state") :: EvPrint line
                :: EvSleep 500 :: new).
        split; [rewrite Hnew; unfold w'; rewrite <- app_assoc; reflexivity|].
        intros pre request post Heq Hnone. destruct pre as [|e1 pre]; cbn in Heq.
        -- injection Heq as <- _. rewrite app_nil_r, Hmode in Hnone. discriminate.
        -- injection Heq as <- Heq.
           destruct pre as [|e2 pre]; cbn in Heq; [discriminate|].
           injection Heq as <- Heq.
           destruct pre as [|e3 pre]; cbn in Heq; [discriminate|].
           injection Heq as <- Heq. subst new.
           apply (Hstops pre request post eq_refl).
           unfold w'. rewrite <- app_assoc. exact Hnone.
    + destruct Hcase as (e & Hrun). rewrite Hrun.
      exists [EvRequest (get_from discovery "/state")].
      split; [reflexivity|].
      intros pre request post Heq _. destruct pre as [|e1 pre]; cbn in Heq.
      * injection Heq as _ <-. split; [reflexivity | exists e; reflexivity].
      * injection Heq as _ Heq. destruct pre; discriminate.
Qed.

(** The polling loop has no handler: a poll that is not answered by a
    state with a snapshot and a mode (the bridge is gone, or answers with
    an error page) is the last thing the loop does, and the loop ends with
    the exception instead of polling again. *)
Theorem polling_loop_stops_at_failure (w : World) :
  exists new,
    snd (BasicAgent.polling_loop discovery w) = (w ++ new)%list
    /\ stops_at_failure w new (fst (BasicAgent.polling_loop discovery w)).
Proof. exact (poll_stops 10 0 w). Qed.
End Edges.

Section EdgesMock.
#[local] Existing Instance Mock.exact_floats.

Lemma index_out_of_range_advice :
  AutonomousDebugAgent.handle_exception (host := Mock.ok_host)
    (JDict Mock.index_snapshot) Mock.fresh_agent
  = (Return tt,
     {| AutonomousDebugAgent.self := AutonomousDebugAgent.init;
        AutonomousDebugAgent.world :=
          [EvPrint (nl ++ "🐛 Exception Handler:");
           EvPrint "   Type: System.IndexOutOfRangeException";
           EvPrint "   Local variables: ...";
           EvPrint (nl ++ "💡 Suggestion: Validate array/list bounds");
           EvPrint "   Example: if (index >= 0 && index < array.Length)"] |}).
Proof.
  exact (handle_exception_advises (host := Mock.ok_host) Mock.index_snapshot
           "System.IndexOutOfRangeException" [("i", JInt 5); ("items", JList [])]
           Mock.fresh_agent eq_refl eq_refl).
Defined.

Lemma null_locals_raise :
  AutonomousDebugAgent.handle_exception (host := Mock.ok_host)
    (JDict Mock.null_locals) Mock.fresh_agent
  = (Raise AttributeError,
     {| AutonomousDebugAgent.self := AutonomousDebugAgent.init;
        AutonomousDebugAgent.world :=
          [EvPrint (nl ++ "🐛 Exception Handler:");
           EvPrint "   Type: NullReferenceException"] |}).
Proof.
  exact (handle_exception_needs_locals (host := Mock.ok_host) Mock.null_locals JNull
           Mock.fresh_agent eq_refl eq_refl).
Defined.

Lemma textless_error_raises :
  AutonomousDebugAgent.analyze_error (host := Mock.ok_host)
    (JDict Mock.textless_error) Mock.fresh_agent
  = (Raise AttributeError,
     {| AutonomousDebugAgent.self := AutonomousDebugAgent.init;
        AutonomousDebugAgent.world :=
          analysis_header (host := Mock.ok_host) Mock.textless_error |}).
Proof.
  exact (analyze_error_needs_text (host := Mock.ok_host) Mock.textless_error JNull
           Mock.fresh_agent eq_refl eq_refl).
Defined.

Lemma null_duration_raises :
  AutonomousDebugAgent.sum_durations (NInt 0)
    (Mock.some_logs ++ [JDict Mock.null_duration])
  = Raise TypeError.
Proof.
  apply (duration_must_be_a_number Mock.some_logs [] Mock.null_duration JNull);
    [|reflexivity|reflexivity].
  repeat constructor; eexists; (split; [reflexivity|]);
    first [left; reflexivity | right; eexists; reflexivity].
Defined.

Lemma five_frames_show_three :
  WebSocketAgent.on_message (host := Mock.deep_host) "deep" []
  = (Return tt,
     [EvPrint (nl ++ "🔔 State Change: Break");
      EvPrint "   📍 File: a.cs";
      EvPrint "   📍 Line: 7";
      EvPrint "   🔍 Locals: 1 variables";
      EvPrint "   📚 Stack:";
      EvPrint "      1. f";
      EvPrint "      2. g";
      EvPrint "      3. h"]).
Proof.
  exact (proj1 (break_shows_three_frames (host := Mock.deep_host)
                  "deep" Mock.deep_fields Mock.deep_snapshot [("x", JInt 1)]
                  [JStr "f"; JStr "g"; JStr "h"; JStr "i"; JStr "main"] []
                  eq_refl eq_refl eq_refl eq_refl eq_refl eq_refl)).
Defined.

(** A bridge that is gone: the loop polls once and ends with
    ConnectionError. *)
Example polling_a_dead_bridge :
  let dead := {| json_loads := fun _ => None;
                 py_repr := fun _ => "...";
                 format_float := fun _ _ => "...";
                 format_int := fun _ _ => "...";
                 time_time := fun _ => 0%Q;
                 bridge := fun _ _ => None |} in
  BasicAgent.polling_loop (host := dead) Mock.discovery []
  = (Raise ConnectionError, [EvRequest (get_from Mock.discovery "/state")]).
Proof. reflexivity. Qed.
End EdgesMock.

(** ** How many errors are analysed *)

Section Analyses.
Context {FM : FloatModel} {host : Host} (discovery : Discovery).

Lemma analyses_app (n1 n2 : World) :
  analyses (n1 ++ n2)%list = (analyses n1 + analyses n2)%nat.
Proof. unfold analyses. rewrite filter_app, length_app. reflexivity. Qed.

Lemma count_bind {S A B} (tr : S -> World) (n1 n2 : nat) (m : M S A) (k : A -> M S B) :
  emits tr (at_most_analyses n1) m ->
  (forall a, emits tr (at_most_analyses n2) (k a)) ->
  emits tr (at_most_analyses (n1 + n2)) (bind m k).
Proof.
  intros Hm Hk. apply (emits_bind _ _ (fun _ => at_most_analyses n2) _ m k Hm Hk);
    unfold at_most_analyses.
  - intros w e new Hle. lia.
  - intros w a new1 r new2 H1 H2. rewrite analyses_app. lia.
Qed.

Lemma count_nothing {S A} (tr : S -> World) (n : nat) (m : M S A) :
  (forall s, tr (snd (m s)) = tr s) -> emits tr (at_most_analyses n) m.
Proof.
  intros Hm s. exists []. rewrite Hm, app_nil_r. split; [reflexivity|].
  unfold at_most_analyses. cbn. lia.
Qed.

Lemma count_more {S A} (tr : S -> World) (n n' : nat) (m : M S A) :
  emits tr (at_most_analyses n) m -> (n <= n')%nat -> emits tr (at_most_analyses n') m.
Proof.
  intros Hm Hle. apply (emits_weaken _ _ _ m Hm). unfold at_most_analyses. intros; lia.
Qed.

Lemma count_io_emit (e : Event) :
  is_analysis e = false ->
  emits AutonomousDebugAgent.world (at_most_analyses 0)
    (AutonomousDebugAgent.io (emit e)).
Proof.
  intros He s. exists [e]. split; [reflexivity|].
  unfold at_most_analyses, analyses; cbn [filter]. rewrite He. cbn. lia.
Qed.

Lemma count_io_send (r : Request) :
  emits AutonomousDebugAgent.world (at_most_analyses 0)
    (AutonomousDebugAgent.io (send r)).
Proof.
  intros s. exists [EvRequest r]. unfold AutonomousDebugAgent.io, send.
  destruct (bridge (AutonomousDebugAgent.world s) r);
    (split; [reflexivity | unfold at_most_analyses; cbn; lia]).
Qed.

Lemma count_for_each {S A} (tr : S -> World) (xs : list A) (body : A -> M S bool) :
  (forall x, emits tr (at_most_analyses 1) (body x)) ->
  emits tr (at_most_analyses (List.length xs)) (for_each xs body).
Proof.
  intros Hbody. induction xs as [|x xs IH]; cbn [for_each List.length].
  - apply count_nothing. reflexivity.
  - apply (count_bind tr 1 (List.length xs)); [apply Hbody|].
    intros [|]; [apply count_nothing; reflexivity | exact IH].
Qed.

Ltac count_leaf :=
  first [ apply count_nothing; reflexivity
        | apply count_io_send
        | apply count_io_emit; reflexivity
        | unfold resp_json ].

Ltac count_step :=
  lazymatch goal with
  | |- emits _ (at_most_analyses ?n) (bind _ _) =>
      first [ apply (count_bind _ 0 n); [solve [repeat count_step] | intro]
            | apply (count_bind _ n 0); [| intro; solve [repeat count_step]] ]
  | |- emits _ _ (if ?b then _ else _) => destruct b
  | |- emits _ _ (match ?x with _ => _ end) => destruct x
  | |- emits _ _ _ => count_leaf
  end.

Lemma analyze_error_once (error_item : JSON) :
  emits AutonomousDebugAgent.world (at_most_analyses 1)
    (AutonomousDebugAgent.analyze_error error_item).
Proof.
  intro s. destruct error_item as [| | | | | |d];
    try (exists []; cbn; rewrite app_nil_r; split;
         [reflexivity | unfold at_most_analyses; cbn; lia]).
  rewrite analyze_error_run. exists (analysis_header d). split; [reflexivity|].
  unfold at_most_analyses, analyses, analysis_header. cbn. lia.
Qed.

Lemma show_suggestions_count (suggestions : list string) :
  emits AutonomousDebugAgent.world (at_most_analyses 0)
    (for_each suggestions AutonomousDebugAgent.show_suggestion).
Proof.
  induction suggestions as [|suggestion suggestions IH]; cbn [for_each].
  - apply count_nothing. reflexivity.
  - apply (count_bind _ 0 0).
    + unfold AutonomousDebugAgent.show_suggestion. repeat count_step.
    + intros [|]; [apply count_nothing; reflexivity | exact IH].
Qed.

Lemma report_error_once (error : JSON) :
  emits AutonomousDebugAgent.world (at_most_analyses 1)
    (AutonomousDebugAgent.report_error error).
Proof.
  unfold AutonomousDebugAgent.report_error.
  apply (count_bind _ 1 0); [apply analyze_error_once | intro suggestions].
  apply (count_bind _ 0 0); [apply show_suggestions_count | intro].
  apply count_nothing. reflexivity.
Qed.

Lemma analyze_only_once (error : JSON) :
  emits AutonomousDebugAgent.world (at_most_analyses 1)
    (AutonomousDebugAgent.analyze_only error).
Proof.
  unfold AutonomousDebugAgent.analyze_only.
  apply (count_bind _ 1 0); [apply analyze_error_once | intro].
  apply count_nothing. reflexivity.
Qed.

Lemma chars_length (s : string) : List.length (chars s) = String.length s.
Proof. induction s as [|c s IH]; cbn; [reflexivity | rewrite IH; reflexivity]. Qed.

Lemma substring_length (n : nat) :
  forall s, (String.length (String.substring 0 n s) <= n)%nat.
Proof.
  induction n as [|n IH]; intros [|c s]; cbn; try lia.
  specialize (IH s). lia.
Qed.

(** The items of [x[:n]]: [n] at most. *)
Lemma slice_bounds (n : nat) (x shown : JSON) (items : list JSON) :
  py_slice_to n x = Return shown -> py_iter shown = Return items ->
  (List.length items <= n)%nat.
Proof.
  destruct x; cbn; try discriminate; intros Hshown; injection Hshown as <-; cbn;
    intros Hitems; injection Hitems as <-.
  - rewrite length_map, chars_length. apply substring_length.
  - apply firstn_le_length.
Qed.

(** The loop over [errors[:n]], with a body that analyses one error. *)
Lemma analysed_slice (n : nat) (errors : JSON)
    (body : JSON -> M AutonomousDebugAgent.AgentWorld bool) :
  (forall error, emits AutonomousDebugAgent.world (at_most_analyses 1) (body error)) ->
  emits AutonomousDebugAgent.world (at_most_analyses n)
    (shown <- try (py_slice_to n errors) ;;
     items <- try (py_iter shown) ;;
     for_each items body).
Proof.
  intros Hbody. apply emits_bind_try.
  destruct (py_slice_to n errors) as [shown|e] eqn:Hshown;
    [|apply count_nothing; reflexivity].
  apply emits_bind_try.
  destruct (py_iter shown) as [items|e] eqn:Hitems;
    [|apply count_nothing; reflexivity].
  apply (count_more _ (List.length items));
    [apply count_for_each; exact Hbody | apply (slice_bounds n errors shown items Hshown Hitems)].
Qed.

(** However many errors the bridge lists, [analyze_session] analyses five
    of them at most, and [run_debugging_cycle] three at most. *)
Theorem analyses_are_bounded :
  emits AutonomousDebugAgent.world (at_most_analyses 5)
    (AutonomousDebugAgent.analyze_session discovery)
  /\ emits AutonomousDebugAgent.world (at_most_analyses 3)
       (AutonomousDebugAgent.run_debugging_cycle discovery).
Proof.
  split.
  - unfold AutonomousDebugAgent.analyze_session, AutonomousDebugAgent.get_errors,
      AutonomousDebugAgent.get_output, AutonomousDebugAgent.get_logs.
    apply (count_bind _ 0 5); [repeat count_step | intro].
    apply (count_bind _ 0 5); [repeat count_step | intro errors].
    apply (count_bind _ 5 0); [|intro; repeat count_step].
    destruct (py_truth errors); [|apply count_nothing; reflexivity].
    apply (count_bind _ 0 5); [repeat count_step | intro].
    apply (count_bind _ 0 5); [repeat count_step | intro].
    apply analysed_slice. exact report_error_once.
  - unfold AutonomousDebugAgent.run_debugging_cycle, AutonomousDebugAgent.execute_command,
      AutonomousDebugAgent.get_errors, AutonomousDebugAgent.batch_execute.
    do 7 (apply (count_bind _ 0 3); [repeat count_step | intro]).
    match goal with |- context [py_truth ?errors] => destruct (py_truth errors) end.
    + apply (count_bind _ 0 3); [repeat count_step | intro].
      apply (count_bind _ 0 3); [repeat count_step | intro].
      apply analysed_slice. exact analyze_only_once.
    + repeat count_step.
Qed.
End Analyses.
